(** * lale.lib.lale.smac : the SMAC adapter, embedded and verified

    The Python class [SMACImpl] of [lale/lib/lale/smac.py] wraps the SMAC
    Bayesian optimizer around a lale pipeline.  Its own logic is control
    flow: which external call is made with which arguments, which
    exceptions are caught where, what is logged and which attributes of
    [self] are assigned.  The embedding below keeps exactly that:

    - Python exceptions are values of a class hierarchy ([PyExn]);
    - every external collaborator (scikit-learn, SMAC, the lale operators)
      is a field of the record [Externals]: a function on an abstract
      [World] that either returns or raises;
    - the methods run in a state-and-exception monad [M] over the external
      world, the records handed to the module's logger and the attributes
      of [self]. *)

From Stdlib Require Import String List ZArith Bool Lia.
Import ListNotations.
Open Scope string_scope.

(* ------------------------------------------------------------------ *)
(** ** Python exceptions *)

Module PyExn.

(** The builtin classes the module can meet, SMAC's budget signal, and
    [Subclass] for any other class deriving from one of them (single
    inheritance). *)
Inductive exn_class : Type :=
| BaseException
| SystemExit
| KeyboardInterrupt
| Exception
| AssertionError
| AttributeError
| LookupError
| KeyError
| MemoryError
| RuntimeError
| NotImplementedError
| TypeError
| ValueError
| BudgetExhaustedException
| Subclass (name : string) (base : exn_class).

Definition class_eq_dec (a b : exn_class) : {a = b} + {a <> b}.
Proof. decide equality. apply string_dec. Defined.

Definition class_eqb (a b : exn_class) : bool :=
  if class_eq_dec a b then true else false.

(** Method resolution order: the class followed by its ancestors. *)
Fixpoint mro (c : exn_class) : list exn_class :=
  c :: match c with
       | BaseException => []
       | SystemExit | KeyboardInterrupt | Exception => [BaseException]
       | AssertionError | AttributeError | LookupError | MemoryError
       | RuntimeError | TypeError | ValueError
       | BudgetExhaustedException => [Exception; BaseException]
       | KeyError => [LookupError; Exception; BaseException]
       | NotImplementedError => [RuntimeError; Exception; BaseException]
       | Subclass _ b => mro b
       end.

Definition issubclass (c d : exn_class) : bool :=
  existsb (class_eqb d) (mro c).

(** A raised exception: its class and its message ([str(e)]). *)
Record exn : Type := mk_exn { exn_type : exn_class; exn_msg : string }.

Definition isinstance (e : exn) (c : exn_class) : bool :=
  issubclass (exn_type e) c.

End PyExn.
Import PyExn.

(** The result of running a piece of Python: a value or a raised exception. *)
Inductive outcome (A : Type) : Type :=
| Return (a : A)
| Raise (e : exn).
Arguments Return {A} a.
Arguments Raise {A} e.

(* ------------------------------------------------------------------ *)
(** ** Logging *)

Inductive log_level : Type := DEBUG | WARNING.

(** [np.random.RandomState(seed)]. *)
Inductive RandomState : Type := mkRandomState (seed : Z).

(* ------------------------------------------------------------------ *)
(** ** The external collaborators *)

(** What the optimizer does while [optimize()] runs: it moves the world,
    and either stops (returning the incumbent or raising) or asks for the
    target function to be evaluated on a configuration and goes on from
    that evaluation's outcome.  The tree is well founded: the optimizer
    stops after finitely many evaluations on every path. *)
Inductive strategy (World Configuration num : Type) : Type :=
| Stop (r : outcome Configuration) (w : World)
| Ask (c : Configuration) (w : World)
      (k : outcome num -> World -> strategy World Configuration num).
Arguments Stop {World Configuration num} r w.
Arguments Ask {World Configuration num} c w k.

(** Values of the options dict given to [Scenario]. *)
Inductive option_value (ConfigurationSpace num : Type) : Type :=
| OStr (s : string)
| OInt (n : Z)
| OBool (b : bool)
| OSpace (cs : ConfigurationSpace)
| ONum (x : num).
Arguments OStr {ConfigurationSpace num} s.
Arguments OInt {ConfigurationSpace num} n.
Arguments OBool {ConfigurationSpace num} b.
Arguments OSpace {ConfigurationSpace num} cs.
Arguments ONum {ConfigurationSpace num} x.

(** Everything [smac.py] imports and calls but does not define.  Each call
    reads and writes the external world only (global random state, clock,
    warning filters, the optimizer's objects) and returns or raises. *)
Record Externals : Type := {
  World : Type;
  (* data *)
  num : Type;                 (* Python floats: scores, losses, seconds *)
  Data : Type;                (* X *)
  Target : Type;              (* y *)
  Estimator : Type;           (* planned operator or pipeline *)
  Trainable : Type;
  Trained : Type;
  CrossValidator : Type;      (* [cv]: an int or a splitter *)
  Scoring : Type;             (* [scoring]: a name or a scorer *)
  Scorer : Type;
  Proba : Type;
  Predictions : Type;
  SklearnCompat : Type;
  ConfigurationSpace : Type;
  Configuration : Type;
  Scenario : Type;
  RunHistory : Type;
  SmacObject : Type;          (* smac.facade.smac_facade.SMAC *)
  (* arithmetic *)
  sub : num -> num -> num;
  zero : num;
  test_size_020 : num;        (* the literal 0.20 *)
  leb : num -> num -> bool;   (* <= *)
  (* sklearn *)
  check_cv : CrossValidator -> Target -> bool -> World -> outcome CrossValidator * World;
  train_test_split :
    Data -> Target -> num -> World -> outcome (Data * Data * Target * Target) * World;
  check_scoring : Trainable -> Scoring -> World -> outcome Scorer * World;
  scorer_call : Scorer -> Trained -> Data -> Target -> World -> outcome num * World;
  log_loss : Target -> Proba -> World -> outcome num * World;
  make_sklearn_compat : Trained -> World -> outcome SklearnCompat * World;
  (* python standard library *)
  time_time : World -> num * World;
  filterwarnings : string -> World -> World;
  (* lale *)
  LogisticRegression : World -> outcome Estimator * World;
  get_smac_space : Estimator -> option num -> World -> outcome ConfigurationSpace * World;
  cross_val_score_track_trials :
    Trainable -> Data -> Target -> CrossValidator -> Scoring ->
    World -> outcome (num * num * num) * World;
  lale_trainable_op_from_config :
    Estimator -> Configuration -> World -> outcome Trainable * World;
  trainable_fit : Trainable -> Data -> Target -> World -> outcome Trained * World;
  to_json : Trainable -> World -> outcome string * World;
  trained_predict : Trained -> Data -> World -> outcome Predictions * World;
  predict_proba : Trained -> Data -> World -> outcome Proba * World;
  (* SMAC *)
  Scenario_new :
    list (string * option_value ConfigurationSpace num) -> World -> outcome Scenario * World;
  SMAC_new : Scenario -> RandomState -> World -> outcome SmacObject * World;
  SMAC_optimize : SmacObject -> World -> strategy World Configuration num;
  SMAC_get_runhistory : SmacObject -> World -> outcome RunHistory * World;
  (* the (configuration, cost) pairs a run history holds, oldest first *)
  runhistory_entries : RunHistory -> list (Configuration * num)
}.

(* ------------------------------------------------------------------ *)
(** ** The class [SMACImpl] *)

Section SMACImpl.

Variable E : Externals.

(** A value interpolated into a log message. *)
Inductive log_arg : Type :=
| ArgExn (e : exn)                          (* an exception, printed by str *)
| ArgClass (c : exn_class)                  (* type(e) *)
| ArgTraceback (e : exn)                    (* traceback.format_exc() *)
| ArgStr (s : string)
| ArgEstimator (t : option (Trained E)).    (* the stored estimator or None *)

(** One call to the module's logger: level, message template with [{}]
    for each interpolated value, and the values. *)
Record log_record : Type := mk_log {
  level : log_level;
  template : string;
  args : list log_arg
}.

(** The attributes of [self].  [_best_estimator] is not assigned by
    [__init__]: [None] means the attribute does not exist, [Some None]
    that it holds Python's None. *)
Record SMACImpl : Type := mk_SMACImpl {
  max_evals : Z;
  estimator : Estimator E;
  search_space : ConfigurationSpace E;
  scoring : Scoring E;
  best_score : num E;
  handle_cv_failure : bool;
  cv : CrossValidator E;
  max_opt_time : option (num E);
  scenario : Scenario E;
  trials : option (RunHistory E);
  _best_estimator : option (option (Trained E))
}.

Definition set_cv (o : SMACImpl) (v : CrossValidator E) : SMACImpl :=
  mk_SMACImpl (max_evals o) (estimator o) (search_space o) (scoring o)
    (best_score o) (handle_cv_failure o) v (max_opt_time o) (scenario o)
    (trials o) (_best_estimator o).

Definition set_trials (o : SMACImpl) (v : option (RunHistory E)) : SMACImpl :=
  mk_SMACImpl (max_evals o) (estimator o) (search_space o) (scoring o)
    (best_score o) (handle_cv_failure o) (cv o) (max_opt_time o) (scenario o)
    v (_best_estimator o).

Definition set_best_estimator (o : SMACImpl) (v : option (Trained E)) : SMACImpl :=
  mk_SMACImpl (max_evals o) (estimator o) (search_space o) (scoring o)
    (best_score o) (handle_cv_failure o) (cv o) (max_opt_time o) (scenario o)
    (trials o) (Some v).

(** The state a method runs in. *)
Record state : Type := mk_state {
  ext : World E;              (* everything outside the module *)
  log : list log_record;      (* calls to [logger], oldest first *)
  self : SMACImpl
}.

Definition with_ext (s : state) (w : World E) : state :=
  mk_state w (log s) (self s).

Definition with_self (s : state) (o : SMACImpl) : state :=
  mk_state (ext s) (log s) o.

(** *** The monad *)

Definition M (A : Type) : Type := state -> outcome A * state.

Definition ret {A : Type} (a : A) : M A := fun s => (Return a, s).

Definition raise {A : Type} (e : exn) : M A := fun s => (Raise e, s).

Definition bind {A B : Type} (m : M A) (k : A -> M B) : M B :=
  fun s => match m s with
           | (Return a, s') => k a s'
           | (Raise e, s') => (Raise e, s')
           end.

(** A call to an external collaborator. *)
Definition call {A : Type} (c : World E -> outcome A * World E) : M A :=
  fun s => let (r, w) := c (ext s) in (r, with_ext s w).

(** Reading an attribute of [self] that [__init__] assigns. *)
Definition attr {A : Type} (field : SMACImpl -> A) : M A :=
  fun s => (Return (field (self s)), s).

(** [self.x = v]. *)
Definition assign {A : Type} (setter : SMACImpl -> A -> SMACImpl) (v : A) : M unit :=
  fun s => (Return tt, with_self s (setter (self s) v)).

Definition logger (lvl : log_level) (tpl : string) (a : list log_arg) : M unit :=
  fun s => (Return tt, mk_state (ext s) (log s ++ [mk_log lvl tpl a]) (self s)).

(** The first [except] clause whose class the exception is an instance of. *)
Fixpoint find_handler {A : Type} (e : exn) (hs : list (exn_class * (exn -> M A)))
  : option (exn -> M A) :=
  match hs with
  | [] => None
  | (c, h) :: hs' => if isinstance e c then Some h else find_handler e hs'
  end.

(** [try: body  except C1 as e: h1  except C2 as e: h2 ...].  What the body
    did before it raised stays done. *)
Definition try_except {A : Type} (body : M A) (hs : list (exn_class * (exn -> M A))) : M A :=
  fun s => match body s with
           | (Return a, s') => (Return a, s')
           | (Raise e, s') =>
               match find_handler e hs with
               | Some h => h e s'
               | None => (Raise e, s')
               end
           end.

End SMACImpl.

Arguments ret {E A} a.
Arguments raise {E A} e.
Arguments bind {E A B} m k.
Arguments call {E A} c.
Arguments attr {E A} field.
Arguments assign {E A} setter v.
Arguments try_except {E A} body hs.
Arguments find_handler {E A} e hs.
Arguments ArgExn {E} e.
Arguments ArgClass {E} c.
Arguments ArgTraceback {E} e.
Arguments ArgStr {E} s.
Arguments ArgEstimator {E} t.
Arguments mk_log {E} level template args.
Arguments level {E} l.
Arguments template {E} l.
Arguments args {E} l.
Arguments mk_state {E} ext log self.
Arguments ext {E} s.
Arguments log {E} s.
Arguments self {E} s.
Arguments with_ext {E} s w.
Arguments with_self {E} s o.

Declare Scope py_scope.
Delimit Scope py_scope with py.
Notation "x <- m ;; k" := (bind m (fun x => k))
  (at level 61, m at next level, right associativity) : py_scope.
Notation "' p <- m ;; k" := (bind m (fun p => k))
  (at level 61, p pattern, m at next level, right associativity) : py_scope.
Notation "m ;; k" := (bind m (fun _ => k))
  (at level 61, right associativity) : py_scope.
Open Scope py_scope.

Section Methods.

Variable E : Externals.

(** Sequencing of external calls where no object exists yet. *)
Definition and_then {A B : Type} (c : World E -> outcome A * World E)
  (k : A -> World E -> outcome B * World E) : World E -> outcome B * World E :=
  fun w => match c w with
           | (Return a, w') => k a w'
           | (Raise e, w') => (Raise e, w')
           end.

(** The dict [scenario_options], in insertion order; [wallclock_limit] is
    present only when a time budget was given. *)
Definition scenario_options (max_evals : Z) (search_space : ConfigurationSpace E)
  (max_opt_time : option (num E))
  : list (string * option_value (ConfigurationSpace E) (num E)) :=
  [ ("run_obj", OStr "quality");
    ("runcount-limit", OInt max_evals);
    ("cs", OSpace search_space);
    ("deterministic", OStr "true");
    ("abort_on_first_run_crash", OBool false) ]
  ++ match max_opt_time with
     | Some t => [("wallclock_limit", ONum t)]
     | None => []
     end.

(** [SMACImpl.__init__].  The keyword defaults are left to the caller.
    [_best_estimator] is not assigned here. *)
Definition __init__ (estimator : option (Estimator E)) (max_evals : Z)
  (cv : CrossValidator E) (handle_cv_failure : bool) (scoring : Scoring E)
  (best_score : num E) (max_opt_time : option (num E))
  (lale_num_grids : option (num E))
  : World E -> outcome (SMACImpl E) * World E :=
  and_then (match estimator with
            | None => LogisticRegression E
            | Some est => fun w => (Return est, w)
            end) (fun est =>
  and_then (get_smac_space E est lale_num_grids) (fun space =>
  and_then (Scenario_new E (scenario_options max_evals space max_opt_time)) (fun scen w =>
  (Return (mk_SMACImpl E max_evals est space scoring best_score
             handle_cv_failure cv max_opt_time scen None None), w)))).

(** [time.time()]. *)
Definition now : M E (num E) :=
  call (fun w => let (t, w') := time_time E w in (Return t, w')).

(** The inner function [smac_train_test] of [fit]. *)
Definition smac_train_test (trainable : Trainable E) (X_train : Data E)
  (y_train : Target E) : M E (num E * num E * num E) :=
  try_except
    (cv_ <- attr (cv E) ;;
     scoring_ <- attr (scoring E) ;;
     r <- call (cross_val_score_track_trials E trainable X_train y_train cv_ scoring_) ;;
     logger E DEBUG "Successful trial of SMAC" [] ;;
     ret r)
    [ (BaseException, fun e =>
        tolerant <- attr (handle_cv_failure E) ;;
        if (tolerant : bool) then
          ' (X_train_part, X_validation, y_train_part, y_validation) <-
             call (train_test_split E X_train y_train (test_size_020 E)) ;;
          start <- now ;;
          trained <- call (trainable_fit E trainable X_train_part y_train_part) ;;
          scoring_ <- attr (scoring E) ;;
          scorer <- call (check_scoring E trainable scoring_) ;;
          cv_score <- call (scorer_call E scorer trained X_validation y_validation) ;;
          stop <- now ;;
          let execution_time := sub E stop start in
          y_pred_proba <- call (predict_proba E trained X_validation) ;;
          logloss <- try_except
                       (call (log_loss E y_validation y_pred_proba))
                       [ (BaseException, fun _ =>
                           logger E DEBUG "Warning, log loss cannot be computed" [] ;;
                           ret (zero E)) ] ;;
          ret (cv_score, logloss, execution_time)
        else
          json <- call (to_json E trainable) ;;
          logger E DEBUG "Error {} with pipeline:{}" [ArgExn e; ArgStr json] ;;
          raise e) ].

(** [d[key]] on a dict with string keys. *)
Fixpoint getitem {A : Type} (d : list (string * A)) (key : string) : M E A :=
  match d with
  | [] => raise (mk_exn KeyError key)
  | (k, v) :: d' => if String.eqb k key then ret v else getitem d' key
  end.

(** The warning [f] logs before it raises again. *)
Definition crash_warning (e : exn) : log_record E :=
  mk_log WARNING
    "Exception caught in SMACCV:{}, {}, SMAC will set a cost_for_crash to MAXINT."
    [ArgClass (exn_type e); ArgTraceback e].

(** The inner function [f] of [fit]: the target function handed to SMAC. *)
Definition f (X_train : Data E) (y_train : Target E) (trainable : Trainable E)
  : M E (num E) :=
  return_dict <-
    try_except
      (' (score, logloss, execution_time) <- smac_train_test trainable X_train y_train ;;
       best <- attr (best_score E) ;;
       ret [ ("loss", sub E best score);
             ("time", execution_time);
             ("log_loss", logloss) ])
      [ (BaseException, fun e =>
          logger E WARNING
            "Exception caught in SMACCV:{}, {}, SMAC will set a cost_for_crash to MAXINT."
            [ArgClass (exn_type e); ArgTraceback e] ;;
          raise e) ] ;;
  getitem return_dict "loss".

(** Modelled from the spec: [lale.search.lale_smac.lale_op_smac_tae] is not
    in this file.  The Objective Evaluator takes one Configuration, decodes
    it into a concrete trainable pipeline instance and runs the scoring
    on it. *)
Definition lale_op_smac_tae (op : Estimator E) (f_min : Trainable E -> M E (num E))
  : Configuration E -> M E (num E) :=
  fun cfg =>
    trainable <- call (lale_trainable_op_from_config E op cfg) ;;
    f_min trainable.

(** The optimizer object as [fit] holds it: SMAC's own object and the
    target function it was given. *)
Record SMAC : Type := mk_SMAC {
  smac_object : SmacObject E;
  tae_runner : Configuration E -> M E (num E)
}.

(** [orig_SMAC(scenario=..., rng=..., tae_runner=...)]. *)
Definition orig_SMAC (scen : Scenario E) (rng : RandomState)
  (tae : Configuration E -> M E (num E)) : M E SMAC :=
  o <- call (SMAC_new E scen rng) ;;
  ret (mk_SMAC o tae).

(** Running the optimizer's strategy against the target function. *)
Fixpoint play (tae : Configuration E -> M E (num E))
  (t : strategy (World E) (Configuration E) (num E)) (s : state E)
  : outcome (Configuration E) * state E :=
  match t with
  | Stop r w => (r, with_ext s w)
  | Ask c w k => let (o, s') := tae c (with_ext s w) in play tae (k o (ext s')) s'
  end.

(** [smac.optimize()]. *)
Definition optimize (smac : SMAC) : M E (Configuration E) :=
  fun s => play (tae_runner smac) (SMAC_optimize E (smac_object smac) (ext s)) s.

(** [smac.get_runhistory()]. *)
Definition get_runhistory (smac : SMAC) : M E (RunHistory E) :=
  call (SMAC_get_runhistory E (smac_object smac)).

(** The body of the [try] statement of [fit]. *)
Definition search (X_train : Data E) (y_train : Target E) : M E unit :=
  scen <- attr (scenario E) ;;
  est <- attr (estimator E) ;;
  smac <- orig_SMAC scen (mkRandomState 42) (lale_op_smac_tae est (f X_train y_train)) ;;
  incumbent <- optimize smac ;;
  history <- get_runhistory smac ;;
  assign (set_trials E) (Some history) ;;
  est' <- attr (estimator E) ;;
  trainable <- call (lale_trainable_op_from_config E est' incumbent) ;;
  trained <- call (trainable_fit E trainable X_train y_train) ;;
  assign (set_best_estimator E) (Some trained).

(** [SMACImpl.fit]. *)
Definition fit (X_train : Data E) (y_train : Target E) : M E (SMACImpl E) :=
  cv0 <- attr (cv E) ;;
  cv1 <- call (check_cv E cv0 y_train true) ;;
  assign (set_cv E) cv1 ;;
  try_except
    (search X_train y_train)
    [ (BudgetExhaustedException, fun _ =>
        logger E WARNING
          "Maximum alloted optimization time exceeded. Optimization exited prematurely" []);
      (BaseException, fun e =>
        logger E WARNING "Error during optimization: {}" [ArgExn e] ;;
        assign (set_best_estimator E) None) ] ;;
  attr (fun o => o).

(** The two warnings of [fit]. *)
Definition budget_warning : log_record E :=
  mk_log WARNING
    "Maximum alloted optimization time exceeded. Optimization exited prematurely" [].

Definition optimization_warning (e : exn) : log_record E :=
  mk_log WARNING "Error during optimization: {}" [ArgExn e].

(** The state in which the [try] statement of [fit] starts: [check_cv]
    has returned [cv1] and left the world [w]. *)
Definition search_start (s : state E) (cv1 : CrossValidator E) (w : World E) : state E :=
  mk_state w (log s) (set_cv E (self s) cv1).

(** A computation that assigns no attribute of [self]. *)
Definition keeps_self {A : Type} (m : M E A) : Prop :=
  forall s, self (snd (m s)) = self s.

(** [self._best_estimator], an attribute that may not exist. *)
Definition attr_best_estimator : M E (option (Trained E)) :=
  fun s => match _best_estimator E (self s) with
           | Some v => (Return v, s)
           | None =>
               (Raise (mk_exn AttributeError
                  "'SMACImpl' object has no attribute '_best_estimator'"), s)
           end.

(** [SMACImpl.predict]. *)
Definition predict (X_eval : Data E) : M E (option (Predictions E)) :=
  call (fun w => (Return tt, filterwarnings E "ignore" w)) ;;
  trained <- attr_best_estimator ;;
  try_except
    (match trained with
     | Some t => p <- call (trained_predict E t X_eval) ;; ret (Some p)
     | None =>
         raise (mk_exn AttributeError "'NoneType' object has no attribute 'predict'")
     end)
    [ (ValueError, fun e =>
        logger E WARNING "ValueError in predicting using SMACCV:{}, the error is:{}"
          [ArgEstimator trained; ArgExn e] ;;
        ret None) ].

(** [SMACImpl.get_trials]. *)
Definition get_trials : M E (option (RunHistory E)) := attr (trials E).

(** What [get_pipeline] hands out. *)
Inductive pipeline : Type :=
| LalePipeline (t : Trained E)
| SklearnPipeline (c : SklearnCompat E).

(** [getattr(self, '_best_estimator', None)]. *)
Definition getattr_best_estimator (o : SMACImpl E) : option (Trained E) :=
  match _best_estimator E o with
  | Some v => v
  | None => None
  end.

(** No Best Estimator is stored: the attribute does not exist, or it
    holds None. *)
Definition absent (o : SMACImpl E) : Prop :=
  _best_estimator E o = None \/ _best_estimator E o = Some None.

(** [SMACImpl.get_pipeline]. *)
Definition get_pipeline (pipeline_name : option string) (astype : string)
  : M E (option pipeline) :=
  match pipeline_name with
  | Some _ => raise (mk_exn NotImplementedError "Cannot get pipeline by name yet.")
  | None =>
      result <- attr getattr_best_estimator ;;
      match result with
      | None => ret None                          (* result is None *)
      | Some t =>
          if String.eqb astype "lale" then        (* astype == 'lale' *)
            ret (Some (LalePipeline t))
          else if String.eqb astype "sklearn" then
            c <- call (make_sklearn_compat E t) ;;
            ret (Some (SklearnPipeline c))
          else raise (mk_exn AssertionError astype)   (* assert ..., astype *)
      end
  end.

End Methods.

Arguments SMACImpl E : clear implicits.
Arguments smac_train_test {E} trainable X_train y_train.
Arguments f {E} X_train y_train trainable.
Arguments getitem {E A} d key.
Arguments lale_op_smac_tae {E} op f_min.
Arguments orig_SMAC {E} scen rng tae.
Arguments play {E} tae t s.
Arguments optimize {E} smac.
Arguments get_runhistory {E} smac.
Arguments search {E} X_train y_train.
Arguments fit {E} X_train y_train.
Arguments attr_best_estimator {E}.
Arguments search_start {E} s cv1 w.
Arguments keeps_self {E A} m.
Arguments predict {E} X_eval.
Arguments get_trials {E}.
Arguments get_pipeline {E} pipeline_name astype.
Arguments getattr_best_estimator {E} o.
Arguments absent {E} o.
Arguments now {E}.
Arguments LalePipeline {E} t.
Arguments SklearnPipeline {E} c.

(* ------------------------------------------------------------------ *)
(** ** Properties of the collaborators that some results rest on *)

Section Contracts.

Variable E : Externals.

(** The configuration has the least cost recorded in the run history. *)
Definition min_loss (h : RunHistory E) (c : Configuration E) : Prop :=
  exists l, In (c, l) (runhistory_entries E h) /\
            forall c' l', In (c', l') (runhistory_entries E h) -> leb E l l' = true.

(** SMAC's contract on the incumbent: when [optimize()] returns, what it
    returns is the configuration of least cost in the run history the
    optimizer then holds. *)
Definition incumbent_contract : Prop :=
  forall (o : SmacObject E) (tae : Configuration E -> M E (num E))
         (s s1 : state E) (inc : Configuration E) (h : RunHistory E) (w2 : World E),
    play tae (SMAC_optimize E o (ext s)) s = (Return inc, s1) ->
    SMAC_get_runhistory E o (ext s1) = (Return h, w2) ->
    min_loss h inc.

(** Two runs of the optimizer make the same moves: they ask for the same
    configurations and stop with the same result, as long as the
    evaluations they are given agree and the worlds stay related. *)
Inductive same_moves (R : World E -> World E -> Prop)
  : strategy (World E) (Configuration E) (num E) ->
    strategy (World E) (Configuration E) (num E) -> Prop :=
| same_stop r w1 w2 :
    R w1 w2 -> same_moves R (Stop r w1) (Stop r w2)
| same_ask c w1 w2 k1 k2 :
    R w1 w2 ->
    (forall o w1' w2', R w1' w2' -> same_moves R (k1 o w1') (k2 o w2')) ->
    same_moves R (Ask c w1 k1) (Ask c w2 k2).

(** A call gives the same result in related worlds and keeps them related. *)
Definition repeatable {A : Type} (R : World E -> World E -> Prop)
  (c : World E -> outcome A * World E) : Prop :=
  forall w1 w2, R w1 w2 ->
    fst (c w1) = fst (c w2) /\ R (snd (c w1)) (snd (c w2)).

(** Two results of the cross-validation that [f] cannot tell apart: the
    same exception, or the same score; [f] drops the log-loss and the
    time. *)
Definition same_score (r1 r2 : outcome (num E * num E * num E)) : Prop :=
  match r1, r2 with
  | Return (score1, _, _), Return (score2, _, _) => score1 = score2
  | Raise e1, Raise e2 => e1 = e2
  | _, _ => False
  end.

(** The collaborators that every run of [fit] calls are deterministic up
    to [R]: [R] relates two worlds that differ at most in what is not
    under the program's control (the process-wide random generator, the
    clock).  Of the cross-validation only the score has to be the same.
    The optimizer's constructor is not listed here: what is asked of it
    is asked for the seed [fit] passes. *)
Record deterministic (R : World E -> World E -> Prop) : Prop := {
  det_check_cv : forall c y b, repeatable R (check_cv E c y b);
  det_cross_val : forall t X y c sc w1 w2, R w1 w2 ->
    same_score (fst (cross_val_score_track_trials E t X y c sc w1))
               (fst (cross_val_score_track_trials E t X y c sc w2)) /\
    R (snd (cross_val_score_track_trials E t X y c sc w1))
      (snd (cross_val_score_track_trials E t X y c sc w2));
  det_to_json : forall t, repeatable R (to_json E t);
  det_from_config : forall est c, repeatable R (lale_trainable_op_from_config E est c);
  det_fit : forall t X y, repeatable R (trainable_fit E t X y);
  det_get_runhistory : forall o, repeatable R (SMAC_get_runhistory E o);
  det_optimize : forall o w1 w2, R w1 w2 ->
    same_moves R (SMAC_optimize E o w1) (SMAC_optimize E o w2)
}.

(** The calls of the fallback split are deterministic up to [R] as far as
    [f] looks at them: the split, the scorer and [predict_proba] give the
    same result; the clock and [log_loss], whose values [f] drops, only
    keep the worlds related. *)
Record holdout_deterministic (R : World E -> World E -> Prop) : Prop := {
  det_split : forall X y, repeatable R (train_test_split E X y (test_size_020 E));
  det_time : forall w1 w2, R w1 w2 ->
    R (snd (time_time E w1)) (snd (time_time E w2));
  det_check_scoring : forall t sc, repeatable R (check_scoring E t sc);
  det_scorer : forall sc t X y, repeatable R (scorer_call E sc t X y);
  det_predict_proba : forall t X, repeatable R (predict_proba E t X);
  det_log_loss : forall y p w1 w2, R w1 w2 ->
    R (snd (log_loss E y p w1)) (snd (log_loss E y p w2))
}.

(** The branch of the [except] clause of [smac_train_test] that is taken
    when failures are tolerated, by itself. *)
Definition holdout (trainable : Trainable E) (X_train : Data E) (y_train : Target E)
  : M E (num E * num E * num E) :=
  ' (X_train_part, X_validation, y_train_part, y_validation) <-
     call (train_test_split E X_train y_train (test_size_020 E)) ;;
  start <- now ;;
  trained <- call (trainable_fit E trainable X_train_part y_train_part) ;;
  scoring_ <- attr (scoring E) ;;
  scorer <- call (check_scoring E trainable scoring_) ;;
  cv_score <- call (scorer_call E scorer trained X_validation y_validation) ;;
  stop <- now ;;
  let execution_time := sub E stop start in
  y_pred_proba <- call (predict_proba E trained X_validation) ;;
  logloss <- try_except
               (call (log_loss E y_validation y_pred_proba))
               [ (BaseException, fun _ =>
                   logger E DEBUG "Warning, log loss cannot be computed" [] ;;
                   ret (zero E)) ] ;;
  ret (cv_score, logloss, execution_time).

(** Cross-validation on the training data fails for no pipeline. *)
Definition cv_never_fails (X : Data E) (y : Target E) (sc : Scoring E) : Prop :=
  forall t c w, exists r w',
    cross_val_score_track_trials E t X y c sc w = (Return r, w').

(** The unseeded fallback split cannot make two runs differ: it is
    switched off, or never reached, or it is itself deterministic. *)
Definition fallback_harmless (R : World E -> World E -> Prop)
  (X : Data E) (y : Target E) (o : SMACImpl E) : Prop :=
  handle_cv_failure E o = false \/
  cv_never_fails X y (scoring E o) \/
  holdout_deterministic R.

(** Two states of two runs that are alike in what the program controls:
    related worlds and the same object, for which the fallback is
    harmless. *)
Definition alike (R : World E -> World E -> Prop) (X : Data E) (y : Target E)
  (s1 s2 : state E) : Prop :=
  R (ext s1) (ext s2) /\ self s1 = self s2 /\ fallback_harmless R X y (self s1).

(** A computation that, from states that are alike, gives the same result
    and states that are alike again. *)
Definition reproducible {A : Type} (R : World E -> World E -> Prop)
  (X : Data E) (y : Target E) (m : M E A) : Prop :=
  forall s1 s2, alike R X y s1 s2 ->
    fst (m s1) = fst (m s2) /\ alike R X y (snd (m s1)) (snd (m s2)).

End Contracts.

Arguments min_loss {E} h c.
Arguments same_moves {E} R _ _.
Arguments repeatable {E A} R c.
Arguments same_score {E} r1 r2.
Arguments holdout {E} trainable X_train y_train.
Arguments cv_never_fails {E} X y sc.
Arguments fallback_harmless {E} R X y o.
Arguments alike {E} R X y s1 s2.
Arguments reproducible {E A} R X y m.

(* ------------------------------------------------------------------ *)
(** ** A small concrete set of collaborators

    Used to run the methods on concrete inputs.  The pipeline is a
    constant classifier: its one hyperparameter is the label it predicts,
    its score the number of validation labels it gets right.  Numbers are
    integers, fractions are held in hundredths. *)

Module Toy.

Open Scope Z_scope.

Record world : Type := mk_world {
  rng : Z;                       (* numpy's global random generator *)
  clock : Z;                     (* seconds since the start *)
  filters : list string;         (* the warning filters *)
  runs : list (Z * Z)            (* the run history inside the optimizer *)
}.

Definition set_rng (w : world) (v : Z) : world :=
  mk_world v (clock w) (filters w) (runs w).

Definition set_clock (w : world) (v : Z) : world :=
  mk_world (rng w) v (filters w) (runs w).

Definition set_runs (w : world) (v : list (Z * Z)) : world :=
  mk_world (rng w) (clock w) (filters w) v.

Definition count (c : Z) (y : list Z) : Z :=
  Z.of_nat (length (filter (Z.eqb c) y)).

Definition rotate {A : Type} (k : nat) (l : list A) : list A :=
  skipn k l ++ firstn k l.

Definition value_error {A : Type} (msg : string) : outcome A :=
  Raise (mk_exn ValueError msg).

(** The trained classifier: its label and the labels it was fit on. *)
Definition trained : Type := Z * list Z.

Definition toy_check_cv (c : Z) (y : list Z) (classifier : bool) (w : world)
  : outcome Z * world := (Return c, w).

(** Fails for fewer samples than folds and for a negative label; takes a
    second of the clock.  The score is the number of labels the classifier
    gets right, the log-loss stands for a value that depends on the data,
    the time for one that depends on the moment. *)
Definition toy_cross_val_score_track_trials (c : Z) (X y : list Z) (folds : Z)
  (sc : string) (w : world) : outcome (Z * Z * Z) * world :=
  if Z.of_nat (length y) <? folds then
    (value_error "n_splits greater than the number of samples", w)
  else if c <? 0 then (value_error "negative label", w)
  else (Return (count c y, fold_right Z.add 0 X, 1 + clock w), set_clock w (clock w + 1)).

(** The validation part is the first fifth (rounded up) of the data
    rotated by the global random state, which is then advanced. *)
Definition toy_train_test_split (X y : list Z) (test_size : Z) (w : world)
  : outcome (list Z * list Z * list Z * list Z) * world :=
  match y with
  | [] => (value_error "n_samples=0", w)
  | _ =>
      let n := Z.of_nat (length y) in
      let k := Z.to_nat (rng w mod n) in
      let n_test := Z.to_nat ((n * test_size + 99) / 100) in
      let X' := rotate k X in
      let y' := rotate k y in
      (Return (skipn n_test X', firstn n_test X', skipn n_test y', firstn n_test y'),
       set_rng w (rng w + 1))
  end.

Definition toy_check_scoring (c : Z) (sc : string) (w : world) : outcome unit * world :=
  if String.eqb sc "accuracy" then (Return tt, w)
  else (value_error "not a valid scoring value", w).

Definition toy_scorer_call (_ : unit) (t : trained) (X y : list Z) (w : world)
  : outcome Z * world := (Return (count (fst t) y), w).

Definition toy_log_loss (y : list Z) (p : list Z) (w : world) : outcome Z * world :=
  if (length y <=? 1)%nat then (value_error "y_true contains only one label", w)
  else (Return 1, w).

Definition toy_trainable_fit (c : Z) (X y : list Z) (w : world) : outcome trained * world :=
  if c <? 0 then (value_error "negative label", w) else (Return (c, y), w).

(** The classifier for label 7 has no [predict_proba]. *)
Definition toy_predict_proba (t : trained) (X : list Z) (w : world)
  : outcome (list Z) * world :=
  if fst t =? 7 then
    (Raise (mk_exn AttributeError "object has no attribute 'predict_proba'"), w)
  else (Return (map (fun _ => 100) X), w).

Definition toy_trained_predict (t : trained) (X : list Z) (w : world)
  : outcome (list Z) * world :=
  match X with
  | [] => (value_error "Found array with 0 sample(s)", w)
  | _ => if existsb (fun x => x <? 0) X
         then (Raise (mk_exn TypeError "unsupported operand"), w)
         else (Return (map (fun _ => fst t) X), w)
  end.

Definition dict : Type := list (string * option_value (list Z) Z).

Fixpoint lookup (d : dict) (key : string) : option (option_value (list Z) Z) :=
  match d with
  | [] => None
  | (k, v) :: d' => if String.eqb k key then Some v else lookup d' key
  end.

(** The optimizer object: evaluation limit, candidates, time limit, seed. *)
Record smac_object : Type := mk_smac_object {
  runcount_limit : nat;
  candidates : list Z;
  wallclock_limit : option Z;
  seed_of : RandomState
}.

Definition toy_SMAC_new (d : dict) (r : RandomState) (w : world)
  : outcome smac_object * world :=
  match lookup d "runcount-limit", lookup d "cs" with
  | Some (OInt n), Some (OSpace cs) =>
      let limit := match lookup d "wallclock_limit" with
                   | Some (ONum t) => Some t
                   | _ => None
                   end in
      (Return (mk_smac_object (Z.to_nat n) cs limit r), w)
  | _, _ => (Raise (mk_exn KeyError "scenario"), w)
  end.

Definition MAXINT : Z := 2147483647.

(** The cost of an evaluation: its loss, or [MAXINT] when it crashed. *)
Definition cost (o : outcome Z) : Z :=
  match o with
  | Return l => l
  | Raise _ => MAXINT
  end.

(** The first configuration of least cost. *)
Fixpoint argmin (h : list (Z * Z)) : option (Z * Z) :=
  match h with
  | [] => None
  | (c, l) :: h' =>
      match argmin h' with
      | Some (c', l') => if l <=? l' then Some (c, l) else Some (c', l')
      | None => Some (c, l)
      end
  end.

Definition exhausted (limit : option Z) (w : world) : bool :=
  match limit with
  | Some t => t <=? clock w
  | None => false
  end.

(** The search: the candidates are tried in order, each evaluation is
    recorded, and the time limit is checked between evaluations. *)
Fixpoint toy_search (limit : option Z) (done : list (Z * Z)) (todo : list Z)
  (w : world) : strategy world Z Z :=
  match todo with
  | [] =>
      match argmin done with
      | Some (c, _) => Stop (Return c) (set_runs w done)
      | None => Stop (value_error "no configuration was evaluated") (set_runs w done)
      end
  | c :: todo' =>
      if exhausted limit w then
        Stop (Raise (mk_exn BudgetExhaustedException "budget exhausted")) (set_runs w done)
      else
        Ask c w (fun o w' => toy_search limit (done ++ [(c, cost o)]) todo' w')
  end.

Definition toy_SMAC_optimize (o : smac_object) (w : world) : strategy world Z Z :=
  toy_search (wallclock_limit o) [] (firstn (runcount_limit o) (candidates o)) w.

Definition env : Externals := {|
  World := world;
  num := Z;
  Data := list Z;
  Target := list Z;
  Estimator := list Z;
  Trainable := Z;
  Trained := trained;
  CrossValidator := Z;
  Scoring := string;
  Scorer := unit;
  Proba := list Z;
  Predictions := list Z;
  SklearnCompat := trained;
  ConfigurationSpace := list Z;
  Configuration := Z;
  Scenario := dict;
  RunHistory := list (Z * Z);
  SmacObject := smac_object;
  sub := Z.sub;
  zero := 0;
  test_size_020 := 20;
  leb := Z.leb;
  check_cv := toy_check_cv;
  train_test_split := toy_train_test_split;
  check_scoring := toy_check_scoring;
  scorer_call := toy_scorer_call;
  log_loss := toy_log_loss;
  make_sklearn_compat := fun t w => (Return t, w);
  time_time := fun w => (clock w, set_clock w (clock w + 1));
  filterwarnings := fun a w => mk_world (rng w) (clock w) (a :: filters w) (runs w);
  LogisticRegression := fun w => (Return [0; 1], w);
  get_smac_space := fun est _ w => (Return est, w);
  cross_val_score_track_trials := toy_cross_val_score_track_trials;
  lale_trainable_op_from_config := fun _ c w => (Return c, w);
  trainable_fit := toy_trainable_fit;
  to_json := fun c w => (Return "ConstantClassifier", w);
  trained_predict := toy_trained_predict;
  predict_proba := toy_predict_proba;
  Scenario_new := fun d w => (Return d, w);
  SMAC_new := toy_SMAC_new;
  SMAC_optimize := toy_SMAC_optimize;
  SMAC_get_runhistory := fun _ w => (Return (runs w), w);
  runhistory_entries := fun h => h
|}.

(** Worlds that differ at most in the global random state. *)
Definition same_but_rng (w1 w2 : world) : Prop :=
  clock w1 = clock w2 /\ filters w1 = filters w2 /\ runs w1 = runs w2.

Definition w0 : world := mk_world 0 0 [] [].

(** An object built from the given arguments, with the default scorer and
    best score 0, holding the given run history and Best Estimator. *)
Definition object (labels : list Z) (max_evals folds : Z) (tolerant : bool)
  (max_opt_time : option Z) (history : option (list (Z * Z)))
  (best : option (option trained)) : SMACImpl env :=
  mk_SMACImpl env max_evals labels labels "accuracy" 0 tolerant folds max_opt_time
    (scenario_options env max_evals labels max_opt_time) history best.

(** The object as [__init__] leaves it. *)
Definition fresh (labels : list Z) (max_evals folds : Z) (tolerant : bool)
  (max_opt_time : option Z) : SMACImpl env :=
  object labels max_evals folds tolerant max_opt_time None None.

(** A state with nothing logged, at time 0, with the given random state. *)
Definition initial (r : Z) (o : SMACImpl env) : state env :=
  @mk_state env (mk_world r 0 [] []) [] o.

(** [obj.fit(X, y)] and the state it leaves. *)
Definition after_fit (X y : list Z) (s : state env) : state env :=
  snd (fit (E:=env) X y s).

End Toy.

(** The collaborators [E] with another [to_json]. *)
Definition with_to_json (E : Externals)
  (j : Trainable E -> World E -> outcome string * World E) : Externals := {|
  World := World E;
  num := num E;
  Data := Data E;
  Target := Target E;
  Estimator := Estimator E;
  Trainable := Trainable E;
  Trained := Trained E;
  CrossValidator := CrossValidator E;
  Scoring := Scoring E;
  Scorer := Scorer E;
  Proba := Proba E;
  Predictions := Predictions E;
  SklearnCompat := SklearnCompat E;
  ConfigurationSpace := ConfigurationSpace E;
  Configuration := Configuration E;
  Scenario := Scenario E;
  RunHistory := RunHistory E;
  SmacObject := SmacObject E;
  sub := sub E;
  zero := zero E;
  test_size_020 := test_size_020 E;
  leb := leb E;
  check_cv := check_cv E;
  train_test_split := train_test_split E;
  check_scoring := check_scoring E;
  scorer_call := scorer_call E;
  log_loss := log_loss E;
  make_sklearn_compat := make_sklearn_compat E;
  time_time := time_time E;
  filterwarnings := filterwarnings E;
  LogisticRegression := LogisticRegression E;
  get_smac_space := get_smac_space E;
  cross_val_score_track_trials := cross_val_score_track_trials E;
  lale_trainable_op_from_config := lale_trainable_op_from_config E;
  trainable_fit := trainable_fit E;
  to_json := j;
  trained_predict := trained_predict E;
  predict_proba := predict_proba E;
  Scenario_new := Scenario_new E;
  SMAC_new := SMAC_new E;
  SMAC_optimize := SMAC_optimize E;
  SMAC_get_runhistory := SMAC_get_runhistory E;
  runhistory_entries := runhistory_entries E
|}.

(** The concrete collaborators, with a classifier that cannot be
    serialized. *)
Definition unserializable : Externals :=
  with_to_json Toy.env
    (fun _ w => (Raise (mk_exn TypeError "Object of type 'function' is not JSON serializable"), w)).

(* ------------------------------------------------------------------ *)
(** ** What the further results are stated with *)

Section Settings.

Variable E : Externals.

(** [d.get(key)]: the value the dict binds to the key, if any. *)
Fixpoint dict_get {A : Type} (d : list (string * A)) (key : string) : option A :=
  match d with
  | [] => None
  | (k, v) :: d' => if String.eqb k key then Some v else dict_get d' key
  end.

(** Two objects with the same hyperparameters and scenario: they differ at
    most in [cv], [trials] and [_best_estimator], the three attributes
    that [fit] assigns. *)
Definition same_settings (o1 o2 : SMACImpl E) : Prop :=
  max_evals E o1 = max_evals E o2 /\
  estimator E o1 = estimator E o2 /\
  search_space E o1 = search_space E o2 /\
  scoring E o1 = scoring E o2 /\
  best_score E o1 = best_score E o2 /\
  handle_cv_failure E o1 = handle_cv_failure E o2 /\
  max_opt_time E o1 = max_opt_time E o2 /\
  scenario E o1 = scenario E o2.

(** The one record the holdout of [smac_train_test] can log. *)
Definition log_loss_note : log_record E :=
  mk_log DEBUG "Warning, log loss cannot be computed" [].

End Settings.

Arguments dict_get {A} d key.
Arguments same_settings {E} o1 o2.

(** The schema of the hyperparameters, and the keyword defaults of
    [SMACImpl.__init__], as Python literals. *)
Module Schema.

#[local] Unset Elimination Schemes.

Inductive json : Type :=
| JNull                           (* None *)
| JBool (b : bool)
| JInt (n : Z)
| JFloat (literal : string)       (* a float, as it is written *)
| JStr (s : string)
| JList (l : list json)
| JDict (d : list (string * json)).

(** [_hyperparams_schema]. *)
Definition _hyperparams_schema : json :=
  JDict
    [ ("allOf", JList
        [ JDict
          [ ("type", JStr "object");
            ("required", JList
              [ JStr "estimator";
                JStr "max_evals";
                JStr "cv";
                JStr "handle_cv_failure";
                JStr "max_opt_time";
                JStr "lale_num_grids" ]);
            ("relevantToOptimizer", JList [JStr "estimator"]);
            ("additionalProperties", JBool false);
            ("properties", JDict
              [ ("estimator", JDict
                  [ ("anyOf", JList
                      [ JDict
                        [ ("laleType", JStr "operator");
                          ("not", JDict [("enum", JList [JNull])]) ];
                        JDict [("enum", JList [JNull])] ]);
                    ("default", JNull) ]);
                ("max_evals", JDict
                  [ ("type", JStr "integer");
                    ("minimum", JInt 1);
                    ("default", JInt 50) ]);
                ("cv", JDict
                  [ ("type", JStr "integer");
                    ("minimum", JInt 1);
                    ("default", JInt 5) ]);
                ("handle_cv_failure", JDict [("type", JStr "boolean"); ("default", JBool false)]);
                ("scoring", JDict
                  [ ("anyOf", JList
                      [ JDict
                        [ ("description", JStr "Custom scorer object, see https://scikit-learn.org/stable/modules/model_evaluation.html");
                          ("not", JDict [("type", JStr "string")]) ];
                        JDict
                        [ ("enum", JList
                            [ JStr "accuracy";
                              JStr "explained_variance";
                              JStr "max_error";
                              JStr "roc_auc";
                              JStr "roc_auc_ovr";
                              JStr "roc_auc_ovo";
                              JStr "roc_auc_ovr_weighted";
                              JStr "roc_auc_ovo_weighted";
                              JStr "balanced_accuracy";
                              JStr "average_precision";
                              JStr "neg_log_loss";
                              JStr "neg_brier_score";
                              JStr "r2";
                              JStr "neg_mean_squared_error";
                              JStr "neg_mean_absolute_error";
                              JStr "neg_root_mean_squared_error";
                              JStr "neg_mean_squared_log_error";
                              JStr "neg_median_absolute_error" ]) ] ]);
                    ("default", JStr "accuracy") ]);
                ("best_score", JDict [("type", JStr "number"); ("default", JFloat "0.0")]);
                ("max_opt_time", JDict
                  [ ("anyOf", JList
                      [ JDict [("type", JStr "number"); ("minimum", JFloat "0.0")];
                        JDict [("enum", JList [JNull])] ]);
                    ("default", JNull) ]);
                ("lale_num_grids", JDict
                  [ ("anyOf", JList
                      [ JDict
                        [ ("description", JStr "If not set, keep all grids.");
                          ("enum", JList [JNull]) ];
                        JDict
                        [ ("description", JStr "Fraction of grids to keep.");
                          ("type", JStr "number");
                          ("minimum", JFloat "0.0");
                          ("exclusiveMinimum", JBool true);
                          ("maximum", JFloat "1.0");
                          ("exclusiveMaximum", JBool true) ];
                        JDict
                        [ ("description", JStr "Number of grids to keep.");
                          ("type", JStr "integer");
                          ("minimum", JInt 1) ] ]);
                    ("default", JNull) ]) ]) ] ]) ].

(** The parameters of [__init__] after [self], with their defaults, in the
    order of the signature. *)
Definition init_defaults : list (string * json) :=
  [ ("estimator", JNull);
    ("max_evals", JInt 50);
    ("cv", JInt 5);
    ("handle_cv_failure", JBool false);
    ("scoring", JStr "accuracy");
    ("best_score", JFloat "0.0");
    ("max_opt_time", JNull);
    ("lale_num_grids", JNull) ].

(** [v[key]] for a dict, [v[0]] for a list. *)
Definition field (key : string) (v : json) : option json :=
  match v with
  | JDict d => dict_get d key
  | _ => None
  end.

Definition first (v : json) : option json :=
  match v with
  | JList (x :: _) => Some x
  | _ => None
  end.

Definition bind_opt {A B : Type} (o : option A) (k : A -> option B) : option B :=
  match o with
  | Some a => k a
  | None => None
  end.

(** [_hyperparams_schema['allOf'][0]], the object schema. *)
Definition object_schema : option json :=
  bind_opt (field "allOf" _hyperparams_schema) first.

(** The declared properties, in order, each with its ['default']. *)
Definition declared_defaults : list (string * option json) :=
  match bind_opt object_schema (field "properties") with
  | Some (JDict d) => map (fun kv => (fst kv, field "default" (snd kv))) d
  | _ => []
  end.

(** The names in ['required']. *)
Definition required : list string :=
  match bind_opt object_schema (field "required") with
  | Some (JList l) =>
      flat_map (fun v => match v with JStr k => [k] | _ => [] end) l
  | _ => []
  end.

End Schema.

(* ------------------------------------------------------------------ *)
(** * Results *)

(** ** Exceptions and handlers *)

Lemma class_eqb_refl (c : exn_class) : class_eqb c c = true.
Proof. unfold class_eqb. destruct (class_eq_dec c c); congruence. Qed.

(** Every exception class derives from [BaseException]. *)
Lemma issubclass_BaseException (c : exn_class) : issubclass c BaseException = true.
Proof.
  unfold issubclass.
  induction c; try reflexivity.
  simpl. exact IHc.
Qed.

Lemma isinstance_BaseException (e : exn) : isinstance e BaseException = true.
Proof. apply issubclass_BaseException. Qed.

Lemma issubclass_refl (c : exn_class) : issubclass c c = true.
Proof.
  unfold issubclass.
  assert (H : exists l, mro c = c :: l) by (destruct c; eexists; reflexivity).
  destruct H as [l ->]. cbn [existsb]. rewrite class_eqb_refl. reflexivity.
Qed.

(** [except BaseException] catches whatever the body raises. *)
Lemma try_except_BaseException {E A} (body : M E A) (h : exn -> M E A) (s : state E) :
  try_except body [(BaseException, h)] s =
  match body s with
  | (Return a, s') => (Return a, s')
  | (Raise e, s') => h e s'
  end.
Proof.
  unfold try_except. destruct (body s) as [[a | e] s']; [reflexivity |].
  simpl. rewrite isinstance_BaseException. reflexivity.
Qed.

#[local] Ltac step :=
  unfold bind, call, attr, assign, ret, raise, logger, now, with_ext, with_self; simpl.

(** ** [__init__] *)

(** A new object has no run history yet and no [_best_estimator]
    attribute; its scenario was built from the options of
    [scenario_options]. *)
Lemma init_leaves_best_estimator_unset (E : Externals) (est : option (Estimator E))
  (evals : Z) (folds : CrossValidator E) (tolerant : bool) (sc : Scoring E)
  (best : num E) (budget grids : option (num E)) (w w' : World E) (o : SMACImpl E) :
  __init__ E est evals folds tolerant sc best budget grids w = (Return o, w') ->
  trials E o = None /\ _best_estimator E o = None /\ absent o /\
  handle_cv_failure E o = tolerant /\ max_opt_time E o = budget.
Proof.
  unfold __init__, and_then.
  destruct (match est with
            | Some e => fun w0 => (Return e, w0)
            | None => LogisticRegression E
            end w) as [[e0 | x] w1]; [| discriminate].
  destruct (get_smac_space E e0 grids w1) as [[space | x] w2]; [| discriminate].
  destruct (Scenario_new E _ w2) as [[scen | x] w3]; [| discriminate].
  intros H; inversion H; subst; clear H. simpl.
  repeat split. left. reflexivity.
Qed.

(** ** [get_pipeline] *)

Lemma absent_getattr {E} (o : SMACImpl E) :
  absent o <-> getattr_best_estimator o = None.
Proof.
  unfold absent, getattr_best_estimator.
  destruct (_best_estimator E o) as [[t |] |]; split; intros H;
    try reflexivity; try discriminate; try (destruct H; discriminate);
    auto.
Qed.

(** With nothing stored the result is None before [astype] is looked at. *)
Lemma get_pipeline_absent {E} (astype : string) (s : state E) :
  absent (self s) -> get_pipeline None astype s = (Return None, s).
Proof.
  intros Habs. apply absent_getattr in Habs.
  unfold get_pipeline. step. rewrite Habs. reflexivity.
Qed.

(** C10.  With a pipeline name, [get_pipeline] raises NotImplementedError
    whatever is stored and leaves the state as it was; without a name and
    with no Best Estimator stored, it returns None for every [astype],
    and the world is untouched: no conversion is called. *)
Theorem get_pipeline_name_or_absent (E : Externals) :
  (forall (name astype : string) (s : state E),
      get_pipeline (Some name) astype s =
      (Raise (mk_exn NotImplementedError "Cannot get pipeline by name yet."), s)) /\
  (forall (astype : string) (s : state E),
      absent (self s) -> get_pipeline None astype s = (Return None, s)).
Proof.
  split.
  - intros name astype s. reflexivity.
  - intros astype s. apply get_pipeline_absent.
Qed.

(** With an estimator stored, ['lale'] hands it out as it is, ['sklearn']
    converts it, and anything else fails the assertion. *)
Lemma get_pipeline_present {E} (astype : string) (s : state E) (t : Trained E) :
  _best_estimator E (self s) = Some (Some t) ->
  get_pipeline None astype s =
  if String.eqb astype "lale" then (Return (Some (LalePipeline t)), s)
  else if String.eqb astype "sklearn" then
    match make_sklearn_compat E t (ext s) with
    | (Return c, w) => (Return (Some (SklearnPipeline c)), with_ext s w)
    | (Raise e, w) => (Raise e, with_ext s w)
    end
  else (Raise (mk_exn AssertionError astype), s).
Proof.
  intros Hb. unfold get_pipeline, getattr_best_estimator. step. rewrite Hb.
  destruct (String.eqb astype "lale"); [reflexivity |].
  destruct (String.eqb astype "sklearn"); [| reflexivity].
  step. destruct (make_sklearn_compat E t (ext s)) as [[c | e] w]; reflexivity.
Qed.

(** ** [predict] *)

(** The full behaviour of [predict] on a stored estimator: its result is
    passed on; a ValueError (or an exception of a subclass) is turned into
    None and a warning; every other exception reaches the caller. *)
Lemma predict_present {E} (X_eval : Data E) (s : state E) (t : Trained E) :
  _best_estimator E (self s) = Some (Some t) ->
  predict X_eval s =
  match trained_predict E t X_eval (filterwarnings E "ignore" (ext s)) with
  | (Return p, w) => (Return (Some p), with_ext s w)
  | (Raise e, w) =>
      if isinstance e ValueError then
        (Return None,
         mk_state w
           (log s ++ [mk_log WARNING
                        "ValueError in predicting using SMACCV:{}, the error is:{}"
                        [ArgEstimator (Some t); ArgExn e]])
           (self s))
      else (Raise e, with_ext s w)
  end.
Proof.
  intros Hb. unfold predict, attr_best_estimator, try_except. step. rewrite Hb.
  step.
  destruct (trained_predict E t X_eval (filterwarnings E "ignore" (ext s)))
    as [[p | e] w]; simpl; [reflexivity |].
  destruct (isinstance e ValueError); reflexivity.
Qed.

(** With no estimator stored, [predict] raises AttributeError: reading the
    missing attribute fails before the [try], and calling [predict] on
    None fails inside it with an exception the [except] clause does not
    name. *)
Lemma predict_absent {E} (X_eval : Data E) (s : state E) :
  absent (self s) ->
  exists msg,
    predict X_eval s =
    (Raise (mk_exn AttributeError msg), with_ext s (filterwarnings E "ignore" (ext s))).
Proof.
  intros [Hb | Hb]; unfold predict, attr_best_estimator, try_except; step; rewrite Hb;
    eexists; reflexivity.
Qed.

(** C1, as the code has it.  When the stored estimator's [predict] raises
    a ValueError, [predict] returns None and logs one warning instead of
    raising. *)
Theorem predict_ValueError_gives_None (E : Externals) (X_eval : Data E)
  (s : state E) (t : Trained E) (e : exn) (w : World E) :
  _best_estimator E (self s) = Some (Some t) ->
  trained_predict E t X_eval (filterwarnings E "ignore" (ext s)) = (Raise e, w) ->
  isinstance e ValueError = true ->
  predict X_eval s =
  (Return None,
   mk_state w
     (log s ++ [mk_log WARNING
                  "ValueError in predicting using SMACCV:{}, the error is:{}"
                  [ArgEstimator (Some t); ArgExn e]])
     (self s)).
Proof.
  intros Hb Hp He. rewrite (predict_present X_eval s t Hb), Hp, He. reflexivity.
Qed.

(** ** Running the methods on the concrete collaborators *)

Lemma toy_init (labels : list Z) (max_evals folds : Z) (tolerant : bool)
  (max_opt_time : option Z) (w : Toy.world) :
  __init__ Toy.env (Some labels) max_evals folds tolerant "accuracy" 0%Z
    max_opt_time None w =
  (Return (Toy.fresh labels max_evals folds tolerant max_opt_time), w).
Proof. reflexivity. Qed.

(** C10 at concrete inputs: a name on a fitted object, and no name on a
    new one. *)
Lemma get_pipeline_name_or_absent_witness :
  absent (self (Toy.initial 0 (Toy.fresh [0; 1]%Z 2 2 false None))) /\
  get_pipeline (E:=Toy.env) None "sklearn"
    (Toy.initial 0 (Toy.fresh [0; 1]%Z 2 2 false None)) =
  (Return None, Toy.initial 0 (Toy.fresh [0; 1]%Z 2 2 false None)).
Proof.
  split.
  - left. reflexivity.
  - apply (proj2 (get_pipeline_name_or_absent Toy.env)). left. reflexivity.
Defined.

(** C1 fails as stated.  After a search that failed, the Best Estimator is
    None and [predict] raises AttributeError; and on a fitted object, a
    TypeError raised by the estimator reaches the caller. *)
Lemma predict_raises_counterexample :
  (let s := Toy.after_fit [10; 20]%Z [1; 0]%Z
              (Toy.initial 0 (Toy.fresh [] 3 2 false None)) in
   _best_estimator Toy.env (self s) = Some None /\
   fst (predict (E:=Toy.env) [1%Z] s) =
   Raise (mk_exn AttributeError "'NoneType' object has no attribute 'predict'")) /\
  (let s := Toy.after_fit [10; 20; 30; 40]%Z [1; 0; 1; 1]%Z
              (Toy.initial 0 (Toy.fresh [0; 1; 2]%Z 3 2 false None)) in
   _best_estimator Toy.env (self s) = Some (Some (1, [1; 0; 1; 1])%Z) /\
   fst (predict (E:=Toy.env) [(-1)%Z] s) =
   Raise (mk_exn TypeError "unsupported operand")).
Proof. split; split; vm_compute; reflexivity. Qed.

(** C1 at a concrete input: the fitted classifier raises ValueError on an
    empty array, and [predict] returns None with one warning logged. *)
Lemma predict_ValueError_gives_None_witness :
  let s := Toy.after_fit [10; 20; 30; 40]%Z [1; 0; 1; 1]%Z
             (Toy.initial 0 (Toy.fresh [0; 1; 2]%Z 3 2 false None)) in
  let e := mk_exn ValueError "Found array with 0 sample(s)" in
  isinstance e ValueError = true /\
  predict (E:=Toy.env) [] s =
  (Return None,
   mk_state (filterwarnings Toy.env "ignore" (ext s))
     (log s ++ [mk_log WARNING
                  "ValueError in predicting using SMACCV:{}, the error is:{}"
                  [@ArgEstimator Toy.env (Some (1, [1; 0; 1; 1])%Z); ArgExn e]])
     (self s)).
Proof.
  intros s e. split; [reflexivity |].
  apply (predict_ValueError_gives_None Toy.env [] s (1, [1; 0; 1; 1])%Z e);
    vm_compute; reflexivity.
Defined.

(** ** The objective: [smac_train_test] and [f] *)

Section Objective.

Variable E : Externals.
Variables (trainable : Trainable E) (X_train : Data E) (y_train : Target E).
Variable s : state E.

(** Cross-validation returned: its triple is passed on, one debug record
    is logged. *)
Lemma smac_train_test_success (r : num E * num E * num E) (w1 : World E) :
  cross_val_score_track_trials E trainable X_train y_train
    (cv E (self s)) (scoring E (self s)) (ext s) = (Return r, w1) ->
  smac_train_test trainable X_train y_train s =
  (Return r, mk_state w1 (log s ++ [mk_log DEBUG "Successful trial of SMAC" []]) (self s)).
Proof.
  intros Hcv. unfold smac_train_test. rewrite try_except_BaseException.
  step. rewrite Hcv. reflexivity.
Qed.

(** Cross-validation raised and failures are not tolerated. *)
Lemma smac_train_test_intolerant (e : exn) (w1 : World E) :
  cross_val_score_track_trials E trainable X_train y_train
    (cv E (self s)) (scoring E (self s)) (ext s) = (Raise e, w1) ->
  handle_cv_failure E (self s) = false ->
  smac_train_test trainable X_train y_train s =
  match to_json E trainable w1 with
  | (Return json, w2) =>
      (Raise e,
       mk_state w2
         (log s ++ [mk_log DEBUG "Error {} with pipeline:{}" [ArgExn e; ArgStr json]])
         (self s))
  | (Raise e', w2) => (Raise e', mk_state w2 (log s) (self s))
  end.
Proof.
  intros Hcv Hh. unfold smac_train_test. rewrite try_except_BaseException.
  step. rewrite Hcv. simpl. rewrite Hh.
  step. destruct (to_json E trainable w1) as [[json | e'] w2]; reflexivity.
Qed.

(** [f] passes on what [smac_train_test] raises, after a warning. *)
Lemma f_raises (e : exn) (s' : state E) :
  smac_train_test trainable X_train y_train s = (Raise e, s') ->
  f X_train y_train trainable s =
  (Raise e, mk_state (ext s') (log s' ++ [crash_warning E e]) (self s')).
Proof.
  intros H. unfold f, bind at 1. rewrite try_except_BaseException.
  unfold bind at 1. rewrite H. reflexivity.
Qed.

(** [f] returns the loss computed from the score [smac_train_test]
    returns: the best score as the object holds it then, minus the score. *)
Lemma f_returns (score logloss execution_time : num E) (s' : state E) :
  smac_train_test trainable X_train y_train s =
    (Return (score, logloss, execution_time), s') ->
  f X_train y_train trainable s = (Return (sub E (best_score E (self s')) score), s').
Proof.
  intros H. unfold f, bind at 1. rewrite try_except_BaseException.
  unfold bind at 1. rewrite H. reflexivity.
Qed.

End Objective.

(** C8, as the code has it.  When the cross-validated scoring succeeds
    with a score, a log-loss and a time, [smac_train_test] passes the three
    on, and [f] returns the loss alone: best_score minus the score, which
    is zero for a score equal to best_score as soon as a number minus
    itself is zero. *)
Theorem f_returns_the_loss (E : Externals) (trainable : Trainable E)
  (X_train : Data E) (y_train : Target E) (s : state E)
  (score logloss execution_time : num E) (w1 : World E) :
  cross_val_score_track_trials E trainable X_train y_train
    (cv E (self s)) (scoring E (self s)) (ext s) =
    (Return (score, logloss, execution_time), w1) ->
  let s1 := mk_state w1 (log s ++ [mk_log DEBUG "Successful trial of SMAC" []]) (self s) in
  smac_train_test trainable X_train y_train s =
    (Return (score, logloss, execution_time), s1) /\
  f X_train y_train trainable s = (Return (sub E (best_score E (self s)) score), s1) /\
  (score = best_score E (self s) -> sub E score score = zero E ->
   f X_train y_train trainable s = (Return (zero E), s1)).
Proof.
  intros Hcv s1.
  pose proof (smac_train_test_success E trainable X_train y_train s _ w1 Hcv) as Ht.
  pose proof (f_returns E trainable X_train y_train s _ _ _ _ Ht) as Hf.
  split; [exact Ht |]. split; [exact Hf |].
  intros Heq Hz. rewrite Hf. simpl. rewrite <- Heq, Hz. reflexivity.
Qed.

(** C5, as the code has it.  When cross-validation raises and failures
    are not tolerated, [f] raises: the trial fails.  If the serialization
    of the pipeline returns, what [f] raises is the exception of the
    cross-validation, and two records were logged before: the debug record
    with the exception and the serialization, then the warning of [f]. *)
Theorem f_propagates_cv_failure (E : Externals) (trainable : Trainable E)
  (X_train : Data E) (y_train : Target E) (s : state E) (e : exn) (w1 : World E) :
  cross_val_score_track_trials E trainable X_train y_train
    (cv E (self s)) (scoring E (self s)) (ext s) = (Raise e, w1) ->
  handle_cv_failure E (self s) = false ->
  (exists e' s', f X_train y_train trainable s = (Raise e', s')) /\
  (forall json w2,
      to_json E trainable w1 = (Return json, w2) ->
      f X_train y_train trainable s =
      (Raise e,
       mk_state w2
         (log s ++ [mk_log DEBUG "Error {} with pipeline:{}" [ArgExn e; ArgStr json];
                    crash_warning E e])
         (self s))).
Proof.
  intros Hcv Hh.
  pose proof (smac_train_test_intolerant E trainable X_train y_train s e w1 Hcv Hh) as Ht.
  split.
  - destruct (to_json E trainable w1) as [[json | e'] w2];
      rewrite (f_raises E trainable X_train y_train s _ _ Ht); eauto.
  - intros json w2 Hj. rewrite Hj in Ht.
    rewrite (f_raises E trainable X_train y_train s _ _ Ht). simpl.
    rewrite <- app_assoc. reflexivity.
Qed.

(** C4, as the code has it.  When cross-validation raises and failures
    are tolerated, the data is split once with test size 0.20 and no seed,
    the trainable is fit on the training part and scored on the validation
    part.  When these calls and [predict_proba] return, the trial is not
    aborted: [smac_train_test] returns that score with the time between
    the two readings of the clock and the log-loss (0 when [log_loss]
    raises), and [f] returns best_score minus that score. *)
Theorem holdout_after_cv_failure (E : Externals) (trainable : Trainable E)
  (X_train : Data E) (y_train : Target E) (s : state E) (e : exn)
  (X_train_part X_validation : Data E) (y_train_part y_validation : Target E)
  (start stop cv_score : num E) (trained : Trained E) (scorer : Scorer E)
  (y_pred_proba : Proba E) (w1 w2 w3 w4 w5 w6 w7 w8 : World E) :
  cross_val_score_track_trials E trainable X_train y_train
    (cv E (self s)) (scoring E (self s)) (ext s) = (Raise e, w1) ->
  handle_cv_failure E (self s) = true ->
  train_test_split E X_train y_train (test_size_020 E) w1 =
    (Return (X_train_part, X_validation, y_train_part, y_validation), w2) ->
  time_time E w2 = (start, w3) ->
  trainable_fit E trainable X_train_part y_train_part w3 = (Return trained, w4) ->
  check_scoring E trainable (scoring E (self s)) w4 = (Return scorer, w5) ->
  scorer_call E scorer trained X_validation y_validation w5 = (Return cv_score, w6) ->
  time_time E w6 = (stop, w7) ->
  predict_proba E trained X_validation w7 = (Return y_pred_proba, w8) ->
  let loss := sub E (best_score E (self s)) cv_score in
  match log_loss E y_validation y_pred_proba w8 with
  | (Return logloss, w9) =>
      smac_train_test trainable X_train y_train s =
        (Return (cv_score, logloss, sub E stop start), mk_state w9 (log s) (self s)) /\
      f X_train y_train trainable s = (Return loss, mk_state w9 (log s) (self s))
  | (Raise _, w9) =>
      let s' := mk_state w9
                  (log s ++ [mk_log DEBUG "Warning, log loss cannot be computed" []])
                  (self s) in
      smac_train_test trainable X_train y_train s =
        (Return (cv_score, zero E, sub E stop start), s') /\
      f X_train y_train trainable s = (Return loss, s')
  end.
Proof.
  intros Hcv Hh Hsplit Ht0 Hfit Hcs Hsc Ht1 Hpp loss.
  assert (Ht : smac_train_test trainable X_train y_train s =
               match log_loss E y_validation y_pred_proba w8 with
               | (Return logloss, w9) =>
                   (Return (cv_score, logloss, sub E stop start),
                    mk_state w9 (log s) (self s))
               | (Raise _, w9) =>
                   (Return (cv_score, zero E, sub E stop start),
                    mk_state w9
                      (log s ++ [mk_log DEBUG "Warning, log loss cannot be computed" []])
                      (self s))
               end).
  { unfold smac_train_test. rewrite try_except_BaseException.
    step. rewrite Hcv. simpl. rewrite Hh. step.
    rewrite Hsplit. simpl. rewrite Ht0. simpl. rewrite Hfit. simpl.
    rewrite Hcs. simpl. rewrite Hsc. simpl. rewrite Ht1. simpl.
    rewrite Hpp. simpl. rewrite try_except_BaseException. simpl.
    destruct (log_loss E y_validation y_pred_proba w8) as [[ll | e'] w9];
      reflexivity. }
  destruct (log_loss E y_validation y_pred_proba w8) as [[ll | e'] w9]; simpl;
    (split; [exact Ht |]);
    rewrite (f_returns E trainable X_train y_train s _ _ _ _ Ht); reflexivity.
Qed.

(** What the holdout does not catch: an exception of the fit on the
    training part leaves [smac_train_test] as it is. *)
Lemma holdout_fit_raises (E : Externals) (trainable : Trainable E)
  (X_train : Data E) (y_train : Target E) (s : state E) (e e' : exn)
  (X_train_part X_validation : Data E) (y_train_part y_validation : Target E)
  (start : num E) (w1 w2 w3 w4 : World E) :
  cross_val_score_track_trials E trainable X_train y_train
    (cv E (self s)) (scoring E (self s)) (ext s) = (Raise e, w1) ->
  handle_cv_failure E (self s) = true ->
  train_test_split E X_train y_train (test_size_020 E) w1 =
    (Return (X_train_part, X_validation, y_train_part, y_validation), w2) ->
  time_time E w2 = (start, w3) ->
  trainable_fit E trainable X_train_part y_train_part w3 = (Raise e', w4) ->
  smac_train_test trainable X_train y_train s = (Raise e', mk_state w4 (log s) (self s)).
Proof.
  intros Hcv Hh Hsplit Ht0 Hfit.
  unfold smac_train_test. rewrite try_except_BaseException.
  step. rewrite Hcv. simpl. rewrite Hh. step.
  rewrite Hsplit. simpl. rewrite Ht0. simpl. rewrite Hfit. reflexivity.
Qed.

(** C8 fails as stated: what [f] returns carries neither the time nor the
    log-loss.  Two trials with the same score, different log-losses and
    different times return the same number. *)
Lemma f_omits_time_and_log_loss_counterexample :
  let o := Toy.fresh [0; 1; 2]%Z 3 2 false None in
  let s1 := Toy.initial 0 o in
  let s2 := @mk_state Toy.env (Toy.mk_world 0 5 [] []) [] o in
  fst (smac_train_test (E:=Toy.env) 1%Z [10; 20; 30; 40]%Z [1; 0; 1; 1]%Z s1) =
    Return (3, 100, 1)%Z /\
  fst (smac_train_test (E:=Toy.env) 1%Z [10; 20; 30; 80]%Z [1; 0; 1; 1]%Z s2) =
    Return (3, 140, 6)%Z /\
  fst (f (E:=Toy.env) [10; 20; 30; 40]%Z [1; 0; 1; 1]%Z 1%Z s1) = Return (-3)%Z /\
  fst (f (E:=Toy.env) [10; 20; 30; 80]%Z [1; 0; 1; 1]%Z 1%Z s2) = Return (-3)%Z.
Proof. repeat split. Qed.

(** C8 at a concrete input: three of four labels right, best score 0. *)
Lemma f_returns_the_loss_witness :
  let s := Toy.initial 0 (Toy.fresh [0; 1; 2]%Z 3 2 false None) in
  let w1 := Toy.mk_world 0 1 [] [] in
  cross_val_score_track_trials Toy.env 1%Z [10; 20; 30; 40]%Z [1; 0; 1; 1]%Z
    (cv Toy.env (self s)) (scoring Toy.env (self s)) (ext s) =
    (Return (3, 100, 1)%Z, w1) /\
  f (E:=Toy.env) [10; 20; 30; 40]%Z [1; 0; 1; 1]%Z 1%Z s =
  (Return (-3)%Z,
   @mk_state Toy.env w1 [mk_log DEBUG "Successful trial of SMAC" []] (self s)).
Proof.
  intros s w1. split; [reflexivity |].
  exact (proj1 (proj2
    (f_returns_the_loss Toy.env 1%Z [10; 20; 30; 40]%Z [1; 0; 1; 1]%Z s
       3%Z 100%Z 1%Z w1 eq_refl))).
Defined.

(** C5 fails as stated.  The serialization of the pipeline is computed
    before anything is logged or raised again: when it raises, [f] raises
    that exception, not the one of the cross-validation, and the only
    record logged is the warning of [f], with no serialization. *)
Lemma f_raises_serialization_error_counterexample :
  let o := mk_SMACImpl unserializable 2 [0; 1]%Z [0; 1]%Z "accuracy" 0%Z false 5%Z None
             (scenario_options unserializable 2 [0; 1]%Z None) None None in
  let s := @mk_state unserializable Toy.w0 [] o in
  let e := mk_exn ValueError "n_splits greater than the number of samples" in
  let e' := mk_exn TypeError "Object of type 'function' is not JSON serializable" in
  handle_cv_failure unserializable o = false /\
  cross_val_score_track_trials unserializable 1%Z [10; 20; 30; 40]%Z [1; 0; 0; 0]%Z
    (cv unserializable o) (scoring unserializable o) Toy.w0 = (Raise e, Toy.w0) /\
  f (E:=unserializable) [10; 20; 30; 40]%Z [1; 0; 0; 0]%Z 1%Z s =
    (Raise e', @mk_state unserializable Toy.w0 [crash_warning unserializable e'] o).
Proof. repeat split. Qed.

(** C5 at a concrete input: four samples for five folds. *)
Lemma f_propagates_cv_failure_witness :
  let s := Toy.initial 0 (Toy.fresh [0; 1]%Z 2 5 false None) in
  let e := mk_exn ValueError "n_splits greater than the number of samples" in
  cross_val_score_track_trials Toy.env 1%Z [10; 20; 30; 40]%Z [1; 0; 0; 0]%Z
    (cv Toy.env (self s)) (scoring Toy.env (self s)) (ext s) = (Raise e, ext s) /\
  handle_cv_failure Toy.env (self s) = false /\
  f (E:=Toy.env) [10; 20; 30; 40]%Z [1; 0; 0; 0]%Z 1%Z s =
  (Raise e,
   mk_state (ext s)
     [mk_log DEBUG "Error {} with pipeline:{}" [ArgExn e; ArgStr "ConstantClassifier"];
      crash_warning Toy.env e]
     (self s)).
Proof.
  intros s e. split; [reflexivity |]. split; [reflexivity |].
  exact (proj2
    (f_propagates_cv_failure Toy.env 1%Z [10; 20; 30; 40]%Z [1; 0; 0; 0]%Z s e (ext s)
       eq_refl eq_refl) "ConstantClassifier" (ext s) eq_refl).
Defined.

(** C4 fails as stated: with failures tolerated the trial is still
    aborted when the holdout itself raises.  For a negative label the fit
    on the training part raises as the cross-validation did; for label 7
    the score is computed and [predict_proba] then raises. *)
Lemma holdout_aborts_counterexample :
  let s := Toy.initial 0 (Toy.fresh [0; 1]%Z 2 5 true None) in
  handle_cv_failure Toy.env (self s) = true /\
  fst (cross_val_score_track_trials Toy.env (-1)%Z [10; 20; 30; 40]%Z [1; 0; 0; 0]%Z
         (cv Toy.env (self s)) (scoring Toy.env (self s)) (ext s)) =
    Raise (mk_exn ValueError "n_splits greater than the number of samples") /\
  fst (smac_train_test (E:=Toy.env) (-1)%Z [10; 20; 30; 40]%Z [1; 0; 0; 0]%Z s) =
    Raise (mk_exn ValueError "negative label") /\
  fst (f (E:=Toy.env) [10; 20; 30; 40]%Z [1; 0; 0; 0]%Z (-1)%Z s) =
    Raise (mk_exn ValueError "negative label") /\
  fst (f (E:=Toy.env) [10; 20; 30; 40]%Z [1; 0; 0; 0]%Z 7%Z s) =
    Raise (mk_exn AttributeError "object has no attribute 'predict_proba'").
Proof. repeat split. Qed.

(** C4 at a concrete input: four samples for five folds, the first sample
    is held out, and the log-loss of a single label cannot be computed. *)
Lemma holdout_after_cv_failure_witness :
  let s := Toy.initial 0 (Toy.fresh [0; 1]%Z 2 5 true None) in
  let e := mk_exn ValueError "n_splits greater than the number of samples" in
  let s' := @mk_state Toy.env (Toy.mk_world 1 2 [] [])
              [mk_log DEBUG "Warning, log loss cannot be computed" []] (self s) in
  cross_val_score_track_trials Toy.env 1%Z [10; 20; 30; 40]%Z [1; 0; 0; 0]%Z
    (cv Toy.env (self s)) (scoring Toy.env (self s)) (ext s) = (Raise e, ext s) /\
  handle_cv_failure Toy.env (self s) = true /\
  smac_train_test (E:=Toy.env) 1%Z [10; 20; 30; 40]%Z [1; 0; 0; 0]%Z s =
    (Return (1, 0, 1)%Z, s') /\
  f (E:=Toy.env) [10; 20; 30; 40]%Z [1; 0; 0; 0]%Z 1%Z s = (Return (-1)%Z, s').
Proof.
  intros s e s'. split; [reflexivity |]. split; [reflexivity |].
  exact (holdout_after_cv_failure Toy.env 1%Z [10; 20; 30; 40]%Z [1; 0; 0; 0]%Z s e
           [20; 30; 40]%Z [10%Z] [0; 0; 0]%Z [1%Z] 0%Z 1%Z 1%Z (1, [0; 0; 0])%Z tt [100%Z]
           (Toy.mk_world 0 0 [] []) (Toy.mk_world 1 0 [] []) (Toy.mk_world 1 1 [] [])
           (Toy.mk_world 1 1 [] []) (Toy.mk_world 1 1 [] []) (Toy.mk_world 1 1 [] [])
           (Toy.mk_world 1 2 [] []) (Toy.mk_world 1 2 [] [])
           eq_refl eq_refl eq_refl eq_refl eq_refl eq_refl eq_refl eq_refl eq_refl).
Defined.

(** ** What the objective leaves alone *)

Section Frame.

Variable E : Externals.

Lemma keeps_self_ret {A} (a : A) : keeps_self (E:=E) (ret a).
Proof. intros s. reflexivity. Qed.

Lemma keeps_self_raise {A} (e : exn) : keeps_self (E:=E) (@raise E A e).
Proof. intros s. reflexivity. Qed.

Lemma keeps_self_call {A} (c : World E -> outcome A * World E) : keeps_self (call c).
Proof. intros s. unfold call. destruct (c (ext s)). reflexivity. Qed.

Lemma keeps_self_attr {A} (field : SMACImpl E -> A) : keeps_self (attr field).
Proof. intros s. reflexivity. Qed.

Lemma keeps_self_logger lvl tpl a : keeps_self (logger E lvl tpl a).
Proof. intros s. reflexivity. Qed.

Lemma keeps_self_bind {A B} (m : M E A) (k : A -> M E B) :
  keeps_self m -> (forall a, keeps_self (k a)) -> keeps_self (bind m k).
Proof.
  intros Hm Hk s. unfold bind. specialize (Hm s).
  destruct (m s) as [[a | e] s']; simpl in *.
  - rewrite Hk. exact Hm.
  - exact Hm.
Qed.

Lemma keeps_self_try_except {A} (body : M E A) (c : exn_class) (h : exn -> M E A) :
  keeps_self body -> (forall e, keeps_self (h e)) -> keeps_self (try_except body [(c, h)]).
Proof.
  intros Hb Hh s. unfold try_except. specialize (Hb s).
  destruct (body s) as [[a | e] s']; simpl in *; [exact Hb |].
  destruct (isinstance e c); [rewrite Hh |]; exact Hb.
Qed.

Lemma keeps_self_getitem {A} (d : list (string * A)) (key : string) :
  keeps_self (E:=E) (getitem d key).
Proof.
  induction d as [| [k v] d IH]; simpl.
  - apply keeps_self_raise.
  - destruct (String.eqb k key); [apply keeps_self_ret | exact IH].
Qed.

Create HintDb frame.

#[local] Hint Resolve keeps_self_ret keeps_self_raise keeps_self_call keeps_self_attr
  keeps_self_logger keeps_self_getitem : frame.

#[local] Ltac frame :=
  repeat first
    [ apply keeps_self_bind; [| intros ]
    | apply keeps_self_try_except; [| intros ]
    | solve [ auto with frame ]
    | match goal with
      | p : (_ * _)%type |- _ => destruct p
      | b : bool |- _ => destruct b
      end ].

Lemma smac_train_test_keeps_self (t : Trainable E) (X : Data E) (y : Target E) :
  keeps_self (smac_train_test t X y).
Proof. unfold smac_train_test, now. frame. Qed.

Lemma f_keeps_self (X : Data E) (y : Target E) (t : Trainable E) :
  keeps_self (f X y t).
Proof.
  unfold f. apply keeps_self_bind; [| intros; apply keeps_self_getitem ].
  apply keeps_self_try_except.
  - apply keeps_self_bind; [apply smac_train_test_keeps_self |].
    intros [[score logloss] time]. frame.
  - intros e. frame.
Qed.

Lemma tae_keeps_self (est : Estimator E) (X : Data E) (y : Target E) (c : Configuration E) :
  keeps_self (lale_op_smac_tae est (f X y) c).
Proof.
  unfold lale_op_smac_tae. apply keeps_self_bind; [apply keeps_self_call |].
  intros t. apply f_keeps_self.
Qed.

(** The optimizer reaches [self] through the target function only. *)
Lemma play_keeps_self (tae : Configuration E -> M E (num E))
  (t : strategy (World E) (Configuration E) (num E)) :
  (forall c, keeps_self (tae c)) -> keeps_self (fun s => play tae t s).
Proof.
  intros Htae. induction t as [r w | c w k IH]; intros s; simpl.
  - reflexivity.
  - specialize (Htae c (with_ext s w)).
    destruct (tae c (with_ext s w)) as [o s']. simpl in Htae.
    rewrite IH. exact Htae.
Qed.

End Frame.

(** ** [fit] *)

Section Fit.

Variable E : Externals.
Variables (X_train : Data E) (y_train : Target E).

(** The [try] body of [fit], call by call: the optimizer is built with the
    seed 42 and the target function [f] over the training data, it is run,
    its run history is stored, and the incumbent is turned into a pipeline
    that is fit on the training data; the first call that raises ends it. *)
Lemma search_unfold (s : state E) :
  search X_train y_train s =
  match SMAC_new E (scenario E (self s)) (mkRandomState 42) (ext s) with
  | (Raise e, w1) => (Raise e, with_ext s w1)
  | (Return o, w1) =>
      match play (lale_op_smac_tae (estimator E (self s)) (f X_train y_train))
              (SMAC_optimize E o w1) (with_ext s w1) with
      | (Raise e, s2) => (Raise e, s2)
      | (Return incumbent, s2) =>
          match SMAC_get_runhistory E o (ext s2) with
          | (Raise e, w3) => (Raise e, with_ext s2 w3)
          | (Return history, w3) =>
              let o3 := set_trials E (self s2) (Some history) in
              match lale_trainable_op_from_config E (estimator E (self s2)) incumbent w3 with
              | (Raise e, w4) => (Raise e, mk_state w4 (log s2) o3)
              | (Return trainable, w4) =>
                  match trainable_fit E trainable X_train y_train w4 with
                  | (Raise e, w5) => (Raise e, mk_state w5 (log s2) o3)
                  | (Return trained, w5) =>
                      (Return tt,
                       mk_state w5 (log s2) (set_best_estimator E o3 (Some trained)))
                  end
              end
          end
      end
  end.
Proof.
  unfold search, orig_SMAC, optimize, get_runhistory. step.
  destruct (SMAC_new E (scenario E (self s)) (mkRandomState 42) (ext s))
    as [[o | e] w1]; simpl; [| reflexivity].
  destruct (play _ (SMAC_optimize E o w1) _) as [[incumbent | e] s2]; simpl;
    [| reflexivity].
  destruct (SMAC_get_runhistory E o (ext s2)) as [[history | e] w3]; simpl;
    [| reflexivity].
  destruct (lale_trainable_op_from_config E _ incumbent w3) as [[trainable | e] w4];
    simpl; [| reflexivity].
  destruct (trainable_fit E trainable X_train y_train w4) as [[trained | e] w5];
    reflexivity.
Qed.

(** [fit], once [check_cv] has returned: whatever the [try] body does,
    [fit] returns [self]. *)
Lemma fit_unfold (s : state E) (cv1 : CrossValidator E) (w : World E) :
  check_cv E (cv E (self s)) y_train true (ext s) = (Return cv1, w) ->
  fit X_train y_train s =
  match search X_train y_train (search_start s cv1 w) with
  | (Return _, s1) => (Return (self s1), s1)
  | (Raise e, s1) =>
      if isinstance e BudgetExhaustedException then
        (Return (self s1), mk_state (ext s1) (log s1 ++ [budget_warning E]) (self s1))
      else
        (Return (set_best_estimator E (self s1) None),
         mk_state (ext s1) (log s1 ++ [optimization_warning E e])
           (set_best_estimator E (self s1) None))
  end.
Proof.
  intros Hcv. unfold fit, try_except, search_start. step. rewrite Hcv. simpl.
  destruct (search X_train y_train _) as [[[] | e] s1]; simpl; [reflexivity |].
  destruct (isinstance e BudgetExhaustedException); simpl; [reflexivity |].
  rewrite isinstance_BaseException. reflexivity.
Qed.

(** Until its last statement the [try] body leaves [_best_estimator] as
    it was. *)
Lemma search_raise_keeps_best (s s1 : state E) (e : exn) :
  search X_train y_train s = (Raise e, s1) ->
  _best_estimator E (self s1) = _best_estimator E (self s).
Proof.
  rewrite search_unfold.
  destruct (SMAC_new E _ _ (ext s)) as [[o | e0] w1].
  2:{ intros H. inversion H. reflexivity. }
  pose proof (play_keeps_self E _ (SMAC_optimize E o w1)
                (tae_keeps_self E (estimator E (self s)) X_train y_train)
                (with_ext s w1)) as Hp.
  cbv beta in Hp.
  destruct (play _ (SMAC_optimize E o w1) _) as [[incumbent | e0] s2]; simpl in Hp.
  2:{ intros H. inversion H. subst. rewrite Hp. reflexivity. }
  destruct (SMAC_get_runhistory E o (ext s2)) as [[history | e0] w3].
  2:{ intros H. inversion H. subst. simpl. rewrite Hp. reflexivity. }
  simpl.
  destruct (lale_trainable_op_from_config E _ incumbent w3) as [[trainable | e0] w4].
  2:{ intros H. inversion H. subst. simpl. rewrite Hp. reflexivity. }
  destruct (trainable_fit E trainable X_train y_train w4) as [[trained | e0] w5];
    intros H; inversion H. subst. simpl. rewrite Hp. reflexivity.
Qed.

End Fit.

(** C2.  A failure inside the [try] body of [fit] does not reach the
    caller: whatever is raised there, [fit] returns [self] and has logged
    one more warning.  After a failure the Best Estimator is None, whatever
    was stored before, so [get_pipeline()] returns None.  (The budget
    signal, which the spec keeps apart from failures as an expected end of
    the search, is caught and logged too; it leaves the Best Estimator as it
    was, so [get_pipeline()] returns None after it if nothing was stored.) *)
Theorem fit_catches_search_failure (E : Externals) (X_train : Data E)
  (y_train : Target E) (s s1 : state E) (cv1 : CrossValidator E) (w : World E)
  (e : exn) :
  check_cv E (cv E (self s)) y_train true (ext s) = (Return cv1, w) ->
  search X_train y_train (search_start s cv1 w) = (Raise e, s1) ->
  exists s2,
    fit X_train y_train s = (Return (self s2), s2) /\
    ext s2 = ext s1 /\
    (exists r, level r = WARNING /\ log s2 = (log s1 ++ [r])%list) /\
    (isinstance e BudgetExhaustedException = false \/ absent (self s) ->
     forall astype, get_pipeline None astype s2 = (Return None, s2)).
Proof.
  intros Hcv Hs. rewrite (fit_unfold E X_train y_train s cv1 w Hcv), Hs.
  destruct (isinstance e BudgetExhaustedException) eqn:Hb.
  - exists (mk_state (ext s1) (log s1 ++ [budget_warning E]) (self s1)).
    split; [reflexivity |]. split; [reflexivity |].
    split; [exists (budget_warning E); split; reflexivity |].
    intros [Hf | Habs] astype; [discriminate |].
    apply get_pipeline_absent.
    pose proof (search_raise_keeps_best E X_train y_train _ _ _ Hs) as Hk.
    simpl in Hk. unfold absent in *. simpl. rewrite Hk. exact Habs.
  - exists (mk_state (ext s1) (log s1 ++ [optimization_warning E e])
              (set_best_estimator E (self s1) None)).
    split; [reflexivity |]. split; [reflexivity |].
    split; [exists (optimization_warning E e); split; reflexivity |].
    intros _ astype. apply get_pipeline_absent. right. reflexivity.
Qed.

(** C3, as the code has it.  When the optimizer signals that the budget
    is exhausted, [fit] returns [self] after one warning and leaves the
    Best Estimator as it was before the call; if none was stored,
    [get_pipeline()] returns None afterwards. *)
Theorem fit_budget_exhausted (E : Externals) (X_train : Data E)
  (y_train : Target E) (s s1 : state E) (cv1 : CrossValidator E) (w : World E)
  (e : exn) :
  check_cv E (cv E (self s)) y_train true (ext s) = (Return cv1, w) ->
  search X_train y_train (search_start s cv1 w) = (Raise e, s1) ->
  isinstance e BudgetExhaustedException = true ->
  let s2 := mk_state (ext s1) (log s1 ++ [budget_warning E]) (self s1) in
  fit X_train y_train s = (Return (self s2), s2) /\
  _best_estimator E (self s2) = _best_estimator E (self s) /\
  (absent (self s) -> forall astype, get_pipeline None astype s2 = (Return None, s2)).
Proof.
  intros Hcv Hs Hb s2.
  rewrite (fit_unfold E X_train y_train s cv1 w Hcv), Hs, Hb.
  pose proof (search_raise_keeps_best E X_train y_train _ _ _ Hs) as Hk.
  simpl in Hk.
  split; [reflexivity |]. split; [exact Hk |].
  intros Habs astype. apply get_pipeline_absent.
  unfold absent in *. simpl. rewrite Hk. exact Habs.
Qed.

(** When [fit] assigns [trials]: once [optimize()] and
    [get_runhistory()] have returned, and then [get_trials()] returns that
    run history, whether or not the best pipeline could be built and fit
    afterwards.  When the optimizer cannot be built, when [optimize()]
    raises (budget or failure) or when the run history cannot be read,
    the assignment is skipped and [get_trials()] returns what it returned
    before the call. *)
Theorem get_trials_after_fit (E : Externals) (X_train : Data E) (y_train : Target E)
  (s : state E) (cv1 : CrossValidator E) (w : World E) :
  check_cv E (cv E (self s)) y_train true (ext s) = (Return cv1, w) ->
  let after := snd (fit X_train y_train s) in
  match SMAC_new E (scenario E (self s)) (mkRandomState 42) w with
  | (Raise _, _) => get_trials after = (Return (trials E (self s)), after)
  | (Return o, w1) =>
      match play (lale_op_smac_tae (estimator E (self s)) (f X_train y_train))
              (SMAC_optimize E o w1) (with_ext (search_start s cv1 w) w1) with
      | (Raise _, _) => get_trials after = (Return (trials E (self s)), after)
      | (Return _, s2) =>
          match SMAC_get_runhistory E o (ext s2) with
          | (Raise _, _) => get_trials after = (Return (trials E (self s)), after)
          | (Return history, _) => get_trials after = (Return (Some history), after)
          end
      end
  end.
Proof.
  intros Hcv after. unfold get_trials, attr.
  assert (Hfit : trials E (self after) =
                 trials E (self (snd (search X_train y_train (search_start s cv1 w))))).
  { unfold after. rewrite (fit_unfold E X_train y_train s cv1 w Hcv).
    destruct (search X_train y_train (search_start s cv1 w)) as [[[] | e] s1];
      [reflexivity |].
    destruct (isinstance e BudgetExhaustedException); reflexivity. }
  rewrite search_unfold in Hfit. simpl in Hfit.
  destruct (SMAC_new E (scenario E (self s)) (mkRandomState 42) w) as [[o | e] w1].
  2:{ simpl in Hfit. rewrite Hfit. reflexivity. }
  pose proof (play_keeps_self E _ (SMAC_optimize E o w1)
                (tae_keeps_self E (estimator E (self s)) X_train y_train)
                (with_ext (search_start s cv1 w) w1)) as Hp.
  cbv beta in Hp.
  destruct (play _ (SMAC_optimize E o w1) _) as [[incumbent | e] s2]; simpl in Hp.
  2:{ simpl in Hfit. rewrite Hfit, Hp. reflexivity. }
  destruct (SMAC_get_runhistory E o (ext s2)) as [[history | e] w3].
  2:{ simpl in Hfit. rewrite Hfit, Hp. reflexivity. }
  simpl in Hfit.
  destruct (lale_trainable_op_from_config E _ incumbent w3) as [[trainable | e] w4].
  2:{ simpl in Hfit. rewrite Hfit. reflexivity. }
  destruct (trainable_fit E trainable X_train y_train w4) as [[trained | e] w5];
    simpl in Hfit; rewrite Hfit; reflexivity.
Qed.

(** C7.  When the [try] body of [fit] runs to its end, the Best Estimator
    it stores is the pipeline built from the optimizer's incumbent and fit
    on [X_train] and [y_train] as they were passed to [fit]; by the
    optimizer's contract the incumbent is the configuration of least loss
    in the run history that [fit] stores. *)
Theorem best_estimator_fit_on_training_set (E : Externals) (X_train : Data E)
  (y_train : Target E) (s s1 : state E) (cv1 : CrossValidator E) (w : World E) :
  incumbent_contract E ->
  check_cv E (cv E (self s)) y_train true (ext s) = (Return cv1, w) ->
  search X_train y_train (search_start s cv1 w) = (Return tt, s1) ->
  fit X_train y_train s = (Return (self s1), s1) /\
  exists incumbent history trainable trained w3 w4,
    trials E (self s1) = Some history /\
    min_loss history incumbent /\
    lale_trainable_op_from_config E (estimator E (self s)) incumbent w3 =
      (Return trainable, w4) /\
    trainable_fit E trainable X_train y_train w4 = (Return trained, ext s1) /\
    _best_estimator E (self s1) = Some (Some trained).
Proof.
  intros Hcontract Hcv Hs.
  split; [rewrite (fit_unfold E X_train y_train s cv1 w Hcv), Hs; reflexivity |].
  rewrite search_unfold in Hs. simpl in Hs.
  destruct (SMAC_new E (scenario E (self s)) (mkRandomState 42) w) as [[o | e] w1];
    [| discriminate].
  pose proof (play_keeps_self E _ (SMAC_optimize E o w1)
                (tae_keeps_self E (estimator E (self s)) X_train y_train)
                (with_ext (search_start s cv1 w) w1)) as Hp.
  cbv beta in Hp.
  destruct (play _ (SMAC_optimize E o w1) _) as [[incumbent | e] s2] eqn:Hplay;
    [| discriminate].
  simpl in Hp.
  destruct (SMAC_get_runhistory E o (ext s2)) as [[history | e] w3] eqn:Hh;
    [| discriminate].
  simpl in Hs.
  destruct (lale_trainable_op_from_config E _ incumbent w3) as [[trainable | e] w4]
    eqn:Hc; [| discriminate].
  destruct (trainable_fit E trainable X_train y_train w4) as [[trained | e] w5]
    eqn:Hf; [| discriminate].
  inversion Hs; subst s1; clear Hs. simpl.
  exists incumbent, history, trainable, trained, w3, w4.
  split; [reflexivity |].
  split; [exact (Hcontract o _ _ _ _ _ _ Hplay Hh) |].
  rewrite Hp in Hc. simpl in Hc.
  split; [exact Hc |]. split; [exact Hf | reflexivity].
Qed.

(** ** The concrete optimizer keeps SMAC's contract *)

Lemma argmin_None (h : list (Z * Z)) : Toy.argmin h = None -> h = [].
Proof.
  destruct h as [| [c l] h]; [reflexivity |]. simpl.
  destruct (Toy.argmin h) as [[c' l'] |]; [destruct (l <=? l')%Z |]; discriminate.
Qed.

Lemma argmin_least (h : list (Z * Z)) (c l : Z) :
  Toy.argmin h = Some (c, l) ->
  In (c, l) h /\ forall c' l', In (c', l') h -> (l <=? l')%Z = true.
Proof.
  revert c l. induction h as [| [c0 l0] h IH]; intros c l; simpl; [discriminate |].
  destruct (Toy.argmin h) as [[c1 l1] |] eqn:Ha.
  - destruct (IH c1 l1 eq_refl) as [Hin Hle].
    destruct (Z.leb_spec l0 l1) as [H01 | H01]; intros H; inversion H; subst; clear H.
    + split; [left; reflexivity |].
      intros c' l' [Heq | Hin'].
      * inversion Heq; subst. apply Z.leb_refl.
      * apply Z.leb_le. specialize (Hle c' l' Hin'). apply Z.leb_le in Hle. lia.
    + split; [right; exact Hin |].
      intros c' l' [Heq | Hin'].
      * inversion Heq; subst. apply Z.leb_le. lia.
      * exact (Hle c' l' Hin').
  - intros H; inversion H; subst; clear H.
    rewrite (argmin_None h Ha).
    split; [left; reflexivity |].
    intros c' l' [Heq | []]. inversion Heq; subst. apply Z.leb_refl.
Qed.

Lemma toy_search_incumbent (tae : Z -> M Toy.env Z) (limit : option Z) (todo : list Z) :
  forall (done : list (Z * Z)) (w : Toy.world) (s s1 : state Toy.env) (inc : Z),
    play (E:=Toy.env) tae (Toy.toy_search limit done todo w) s = (Return inc, s1) ->
    min_loss (E:=Toy.env) (Toy.runs (ext s1)) inc.
Proof.
  induction todo as [| c todo IH]; intros done w s s1 inc; simpl.
  - destruct (Toy.argmin done) as [[c0 l0] |] eqn:Ha; simpl; [| discriminate].
    intros H; inversion H; subst; clear H. simpl.
    exists l0. exact (argmin_least done inc l0 Ha).
  - destruct (Toy.exhausted limit w); simpl; [discriminate |].
    destruct (tae c (with_ext s w)) as [o s']. apply IH.
Qed.

Lemma toy_incumbent_contract : incumbent_contract Toy.env.
Proof.
  intros o tae s s1 inc h w2 Hplay Hh. simpl in Hh. inversion Hh; subst.
  exact (toy_search_incumbent tae _ _ _ _ _ _ _ Hplay).
Qed.

(** ** [fit] on the concrete collaborators *)

(** C2 at a concrete input: with no label to try the optimizer raises
    ValueError; [fit] returns, and [get_pipeline()] gives None. *)
Lemma fit_catches_search_failure_witness :
  let s := Toy.initial 0 (Toy.fresh [] 3 2 false None) in
  let e := mk_exn ValueError "no configuration was evaluated" in
  let s2 := @mk_state Toy.env (ext s) [optimization_warning Toy.env e]
              (Toy.object [] 3 2 false None None (Some None)) in
  search (E:=Toy.env) [10; 20]%Z [1; 0]%Z (search_start s 2%Z (ext s)) = (Raise e, s) /\
  isinstance e BudgetExhaustedException = false /\
  fit (E:=Toy.env) [10; 20]%Z [1; 0]%Z s = (Return (self s2), s2) /\
  get_pipeline (E:=Toy.env) None "lale" s2 = (Return None, s2).
Proof.
  intros s e s2. split; [reflexivity |]. split; [reflexivity |].
  destruct (fit_catches_search_failure Toy.env [10; 20]%Z [1; 0]%Z s s 2%Z (ext s) e
              eq_refl eq_refl) as (s' & Hfit & _ & _ & Hget).
  assert (Hs' : s' = s2) by (inversion Hfit; reflexivity).
  subst s'. split; [exact Hfit |]. exact (Hget (or_introl eq_refl) "lale").
Defined.

(** C3 fails as stated.  On a new object whose time budget is exhausted
    before the first evaluation, [fit] returns and [get_pipeline()] gives
    None, but [predict] raises AttributeError. *)
Lemma predict_after_budget_counterexample :
  let s := Toy.after_fit [10; 20; 30; 40]%Z [1; 0; 1; 1]%Z
             (Toy.initial 0 (Toy.fresh [0; 1; 2]%Z 3 2 false (Some 0%Z))) in
  log s = [budget_warning Toy.env] /\
  Toy.runs (ext s) = [] /\
  _best_estimator Toy.env (self s) = None /\
  fst (get_pipeline (E:=Toy.env) None "lale" s) = Return None /\
  fst (predict (E:=Toy.env) [1%Z] s) =
  Raise (mk_exn AttributeError "'SMACImpl' object has no attribute '_best_estimator'").
Proof. repeat split. Qed.

(** C3 at a concrete input: the same object and data. *)
Lemma fit_budget_exhausted_witness :
  let s := Toy.initial 0 (Toy.fresh [0; 1; 2]%Z 3 2 false (Some 0%Z)) in
  let e := mk_exn BudgetExhaustedException "budget exhausted" in
  let s2 := @mk_state Toy.env (ext s) [budget_warning Toy.env] (self s) in
  search (E:=Toy.env) [10; 20; 30; 40]%Z [1; 0; 1; 1]%Z (search_start s 2%Z (ext s)) =
    (Raise e, s) /\
  isinstance e BudgetExhaustedException = true /\
  absent (self s) /\
  fit (E:=Toy.env) [10; 20; 30; 40]%Z [1; 0; 1; 1]%Z s = (Return (self s2), s2) /\
  get_pipeline (E:=Toy.env) None "sklearn" s2 = (Return None, s2).
Proof.
  intros s e s2.
  pose proof (fit_budget_exhausted Toy.env [10; 20; 30; 40]%Z [1; 0; 1; 1]%Z s s 2%Z
                (ext s) e eq_refl eq_refl eq_refl) as H.
  split; [reflexivity |]. split; [reflexivity |].
  split; [left; reflexivity |].
  split; [exact (proj1 H) |].
  exact (proj2 (proj2 H) (or_introl eq_refl) "sklearn").
Defined.

(** C9.  The code breaks the claim, and the docstring of [get_trials]
    with it.  The time budget allows one evaluation; the optimizer holds
    its result in its run history when it signals that the budget is
    exhausted, but [fit] has skipped the assignment of [trials], and
    [get_trials()] returns None although a trial was executed. *)
Lemma get_trials_after_budget_counterexample :
  let s := Toy.after_fit [10; 20; 30; 40]%Z [1; 0; 1; 1]%Z
             (Toy.initial 0 (Toy.fresh [0; 1; 2]%Z 3 2 false (Some 1%Z))) in
  log s = [mk_log DEBUG "Successful trial of SMAC" []; budget_warning Toy.env] /\
  Toy.runs (ext s) = [(0, -1)%Z] /\
  fst (get_trials (E:=Toy.env) s) = Return None.
Proof. repeat split. Qed.

(** At a concrete input: three labels are tried and the run history
    with their three losses is what [get_trials()] returns. *)
Lemma get_trials_after_fit_witness :
  let s := Toy.initial 0 (Toy.fresh [0; 1; 2]%Z 3 2 false None) in
  let after := snd (fit (E:=Toy.env) [10; 20; 30; 40]%Z [1; 0; 1; 1]%Z s) in
  check_cv Toy.env (cv Toy.env (self s)) [1; 0; 1; 1]%Z true (ext s) =
    (Return 2%Z, ext s) /\
  get_trials (E:=Toy.env) after = (Return (Some [(0, -1); (1, -3); (2, 0)]%Z), after).
Proof.
  intros s after. split; [reflexivity |].
  exact (get_trials_after_fit Toy.env [10; 20; 30; 40]%Z [1; 0; 1; 1]%Z s 2%Z (ext s)
           eq_refl).
Defined.

(** C7 at a concrete input: of the labels 0, 1, 2 the label 1 has the
    least loss, and the stored classifier was fit on all four labels. *)
Lemma best_estimator_fit_on_training_set_witness :
  let s := Toy.initial 0 (Toy.fresh [0; 1; 2]%Z 3 2 false None) in
  let history := [(0, -1); (1, -3); (2, 0)]%Z in
  let success := mk_log DEBUG "Successful trial of SMAC" [] in
  let s1 := @mk_state Toy.env (Toy.mk_world 0 3 [] history) [success; success; success]
              (Toy.object [0; 1; 2]%Z 3 2 false None (Some history)
                 (Some (Some (1, [1; 0; 1; 1])%Z))) in
  search (E:=Toy.env) [10; 20; 30; 40]%Z [1; 0; 1; 1]%Z (search_start s 2%Z (ext s)) =
    (Return tt, s1) /\
  fit (E:=Toy.env) [10; 20; 30; 40]%Z [1; 0; 1; 1]%Z s = (Return (self s1), s1) /\
  exists incumbent history trainable trained w3 w4,
    trials Toy.env (self s1) = Some history /\
    min_loss history incumbent /\
    lale_trainable_op_from_config Toy.env (estimator Toy.env (self s)) incumbent w3 =
      (Return trainable, w4) /\
    trainable_fit Toy.env trainable [10; 20; 30; 40]%Z [1; 0; 1; 1]%Z w4 =
      (Return trained, ext s1) /\
    _best_estimator Toy.env (self s1) = Some (Some trained).
Proof.
  intros s history success s1. split; [reflexivity |].
  exact (best_estimator_fit_on_training_set Toy.env [10; 20; 30; 40]%Z [1; 0; 1; 1]%Z
           s s1 2%Z (ext s) toy_incumbent_contract eq_refl eq_refl).
Defined.

(** ** Two runs of [fit] *)

Section Determinism.

Variable E : Externals.
Variable R : World E -> World E -> Prop.
Variables (X : Data E) (y : Target E).
Hypothesis Hdet : deterministic E R.
Hypothesis Hseed : forall sc, repeatable R (SMAC_new E sc (mkRandomState 42)).

Lemma repeatable_cases {A} (c : World E -> outcome A * World E) (w1 w2 : World E) :
  repeatable R c -> R w1 w2 ->
  exists r w1' w2', c w1 = (r, w1') /\ c w2 = (r, w2') /\ R w1' w2'.
Proof.
  intros Hc HR. destruct (Hc w1 w2 HR) as [Hfst Hsnd].
  destruct (c w1) as [r1 w1'], (c w2) as [r2 w2']. simpl in *. subst.
  exists r2, w1', w2'. auto.
Qed.

(** With failures tolerated, a failed cross-validation hands over to the
    holdout, in the world the cross-validation left. *)
Lemma smac_train_test_tolerant (t : Trainable E) (s : state E) (e : exn) (w1 : World E) :
  cross_val_score_track_trials E t X y (cv E (self s)) (scoring E (self s)) (ext s) =
    (Raise e, w1) ->
  handle_cv_failure E (self s) = true ->
  smac_train_test t X y s = holdout t X y (with_ext s w1).
Proof.
  intros Hcv Hh. unfold smac_train_test. rewrite try_except_BaseException.
  unfold bind at 1. unfold attr at 1. cbv beta iota.
  unfold bind at 1. unfold attr at 1. cbv beta iota.
  unfold bind at 1. unfold call at 1. rewrite Hcv. cbv beta iota.
  unfold bind at 1. unfold attr at 1. cbv beta iota.
  change (handle_cv_failure E (self (with_ext s w1))) with (handle_cv_failure E (self s)).
  rewrite Hh. reflexivity.
Qed.

(** The holdout, run from states that are alike, ends with the same
    exception or the same score, in related worlds. *)
Lemma holdout_same_score (Hh : holdout_deterministic E R) (t : Trainable E)
  (s1 s2 : state E) :
  R (ext s1) (ext s2) -> self s1 = self s2 ->
  same_score (fst (holdout t X y s1)) (fst (holdout t X y s2)) /\
  R (ext (snd (holdout t X y s1))) (ext (snd (holdout t X y s2))).
Proof.
  intros HR Hs. unfold holdout, now. step. rewrite <- Hs.
  destruct (repeatable_cases _ _ _ (det_split E R Hh X y) HR)
    as (r & w1a & w2a & H1 & H2 & HRa).
  rewrite H1, H2. destruct r as [[[[Xt Xv] yt] yv] | e]; simpl; [| auto].
  pose proof (det_time E R Hh _ _ HRa) as HRb.
  destruct (time_time E w1a) as [start1 w1b], (time_time E w2a) as [start2 w2b].
  simpl in HRb. simpl.
  destruct (repeatable_cases _ _ _ (det_fit E R Hdet t Xt yt) HRb)
    as (r & w1c & w2c & H3 & H4 & HRc).
  rewrite H3, H4. destruct r as [trained | e]; simpl; [| auto].
  destruct (repeatable_cases _ _ _ (det_check_scoring E R Hh t (scoring E (self s1))) HRc)
    as (r & w1d & w2d & H5 & H6 & HRd).
  rewrite H5, H6. destruct r as [scorer | e]; simpl; [| auto].
  destruct (repeatable_cases _ _ _ (det_scorer E R Hh scorer trained Xv yv) HRd)
    as (r & w1e & w2e & H7 & H8 & HRe).
  rewrite H7, H8. destruct r as [score | e]; simpl; [| auto].
  pose proof (det_time E R Hh _ _ HRe) as HRf.
  destruct (time_time E w1e) as [stop1 w1f], (time_time E w2e) as [stop2 w2f].
  simpl in HRf. simpl.
  destruct (repeatable_cases _ _ _ (det_predict_proba E R Hh trained Xv) HRf)
    as (r & w1g & w2g & H9 & H10 & HRg).
  rewrite H9, H10. destruct r as [proba | e]; simpl; [| auto].
  rewrite !try_except_BaseException. step.
  pose proof (det_log_loss E R Hh yv proba _ _ HRg) as HRh.
  destruct (log_loss E yv proba w1g) as [[ll1 | e1] w1h],
           (log_loss E yv proba w2g) as [[ll2 | e2] w2h];
    simpl in HRh; simpl; auto.
Qed.

(** Two runs of [smac_train_test] from states that are alike end with the
    same exception or the same score, in related worlds. *)
Lemma smac_train_test_same_score (t : Trainable E) (s1 s2 : state E) :
  alike R X y s1 s2 ->
  same_score (fst (smac_train_test t X y s1)) (fst (smac_train_test t X y s2)) /\
  R (ext (snd (smac_train_test t X y s1))) (ext (snd (smac_train_test t X y s2))).
Proof.
  intros (HR & Hs & Hharm).
  destruct (det_cross_val E R Hdet t X y (cv E (self s1)) (scoring E (self s1)) _ _ HR)
    as [Hsc HR1].
  destruct (cross_val_score_track_trials E t X y (cv E (self s1)) (scoring E (self s1))
              (ext s1)) as [[[[a1 ll1] t1] | e1] w1] eqn:H1;
  destruct (cross_val_score_track_trials E t X y (cv E (self s1)) (scoring E (self s1))
              (ext s2)) as [[[[a2 ll2] t2] | e2] w2] eqn:H2;
    simpl in Hsc, HR1; try contradiction.
  - subst a2.
    rewrite (smac_train_test_success E t X y s1 _ w1 H1).
    rewrite (smac_train_test_success E t X y s2 _ w2)
      by (rewrite <- Hs; exact H2).
    simpl. auto.
  - subst e2. destruct (handle_cv_failure E (self s1)) eqn:Hh.
    + destruct Hharm as [Hf | [Hnf | Hhold]].
      * congruence.
      * destruct (Hnf t (cv E (self s1)) (ext s1)) as (r & w' & Hr). congruence.
      * rewrite (smac_train_test_tolerant t s1 e1 w1 H1 Hh).
        rewrite (smac_train_test_tolerant t s2 e1 w2)
          by (rewrite <- Hs; assumption).
        apply holdout_same_score; [exact Hhold | exact HR1 | exact Hs].
    + pose proof (smac_train_test_intolerant E t X y s1 e1 w1 H1 Hh) as Ht1.
      assert (Hh2 : handle_cv_failure E (self s2) = false) by (rewrite <- Hs; exact Hh).
      assert (H2' : cross_val_score_track_trials E t X y (cv E (self s2))
                      (scoring E (self s2)) (ext s2) = (Raise e1, w2))
        by (rewrite <- Hs; exact H2).
      pose proof (smac_train_test_intolerant E t X y s2 e1 w2 H2' Hh2) as Ht2.
      rewrite Ht1, Ht2.
      destruct (repeatable_cases _ _ _ (det_to_json E R Hdet t) HR1)
        as (r & w1' & w2' & Hj1 & Hj2 & HR').
      rewrite Hj1, Hj2. destruct r as [json | e']; simpl; auto.
Qed.

Lemma f_reproducible (t : Trainable E) : reproducible R X y (f X y t).
Proof.
  intros s1 s2 Ha. destruct (smac_train_test_same_score t s1 s2 Ha) as [Hsc HR'].
  destruct Ha as (HR & Hs & Hharm).
  pose proof (smac_train_test_keeps_self E t X y s1) as Hk1.
  pose proof (smac_train_test_keeps_self E t X y s2) as Hk2.
  destruct (smac_train_test t X y s1) as [[[[a1 ll1] t1] | e1] p1] eqn:H1;
  destruct (smac_train_test t X y s2) as [[[[a2 ll2] t2] | e2] p2] eqn:H2;
    simpl in Hsc, HR', Hk1, Hk2; try contradiction; subst.
  - rewrite (f_returns E t X y s1 _ _ _ _ H1), (f_returns E t X y s2 _ _ _ _ H2).
    simpl. rewrite Hk1, Hk2, Hs. split; [reflexivity |].
    unfold alike. rewrite Hk1, Hk2. auto.
  - rewrite (f_raises E t X y s1 _ _ H1), (f_raises E t X y s2 _ _ H2).
    simpl. split; [reflexivity |].
    unfold alike. simpl. rewrite Hk1, Hk2. auto.
Qed.

Lemma tae_reproducible (est : Estimator E) (c : Configuration E) :
  reproducible R X y (lale_op_smac_tae est (f X y) c).
Proof.
  intros s1 s2 (HR & Hs & Hharm). unfold lale_op_smac_tae, bind, call.
  destruct (repeatable_cases _ _ _ (det_from_config E R Hdet est c) HR)
    as (r & w1 & w2 & H1 & H2 & HR').
  rewrite H1, H2. destruct r as [t | e].
  - apply f_reproducible. unfold alike, with_ext. simpl. auto.
  - simpl. unfold alike, with_ext. simpl. auto.
Qed.

(** Two runs of the optimizer that make the same moves against a
    reproducible target function end alike. *)
Lemma play_reproducible (tae : Configuration E -> M E (num E))
  (t1 t2 : strategy (World E) (Configuration E) (num E)) :
  (forall c, reproducible R X y (tae c)) ->
  same_moves R t1 t2 ->
  forall s1 s2,
    self s1 = self s2 -> fallback_harmless R X y (self s1) ->
    fst (play tae t1 s1) = fst (play tae t2 s2) /\
    alike R X y (snd (play tae t1 s1)) (snd (play tae t2 s2)).
Proof.
  intros Htae Hsame.
  induction Hsame as [r w1 w2 HR | c w1 w2 k1 k2 HR Hk IH]; intros s1 s2 Hs Hh; simpl.
  - unfold alike. simpl. auto.
  - assert (Ha : alike R X y (with_ext s1 w1) (with_ext s2 w2))
      by (unfold alike; simpl; auto).
    destruct (Htae c _ _ Ha) as [Hfst (HR' & Hs' & Hh')].
    destruct (tae c (with_ext s1 w1)) as [o1 s1'], (tae c (with_ext s2 w2)) as [o2 s2'].
    simpl in *. subst o2. apply IH; assumption.
Qed.

Lemma search_reproducible : reproducible R X y (search X y).
Proof.
  intros s1 s2 (HR & Hs & Hh). rewrite !search_unfold. rewrite <- Hs.
  destruct (repeatable_cases _ _ _ (Hseed (scenario E (self s1))) HR)
    as (r & w1 & w2 & H1 & H2 & HR1).
  rewrite H1, H2. destruct r as [o | e]; [| unfold alike; simpl; auto].
  destruct (play_reproducible _ _ _
              (tae_reproducible (estimator E (self s1)))
              (det_optimize E R Hdet o w1 w2 HR1)
              (with_ext s1 w1) (with_ext s2 w2) Hs Hh)
    as [Hfst (HR2 & Hs2 & Hh2)].
  destruct (play _ (SMAC_optimize E o w1) _) as [r1 p1],
           (play _ (SMAC_optimize E o w2) _) as [r2 p2].
  simpl in Hfst, HR2, Hs2, Hh2. subst r2.
  destruct r1 as [incumbent | e]; [| unfold alike; simpl; auto].
  destruct (repeatable_cases _ _ _ (det_get_runhistory E R Hdet o) HR2)
    as (r & w3 & w3' & H3 & H3' & HR3).
  rewrite H3, H3'. destruct r as [history | e]; [| unfold alike; simpl; auto].
  cbv zeta. rewrite <- Hs2.
  destruct (repeatable_cases _ _ _
              (det_from_config E R Hdet (estimator E (self p1)) incumbent) HR3)
    as (r & w4 & w4' & H4 & H4' & HR4).
  rewrite H4, H4'. destruct r as [trainable | e]; [| unfold alike; simpl; auto].
  destruct (repeatable_cases _ _ _ (det_fit E R Hdet trainable X y) HR4)
    as (r & w5 & w5' & H5 & H5' & HR5).
  rewrite H5, H5'. destruct r as [trained | e]; unfold alike; simpl; auto.
Qed.

Lemma fit_reproducible : reproducible R X y (fit X y).
Proof.
  intros s1 s2 (HR & Hs & Hh).
  destruct (repeatable_cases _ _ _ (det_check_cv E R Hdet (cv E (self s1)) y true) HR)
    as (r & w1 & w2 & H1 & H2 & HR1).
  destruct r as [cv1 | e].
  - rewrite (fit_unfold E X y s1 cv1 w1 H1).
    rewrite (fit_unfold E X y s2 cv1 w2) by (rewrite <- Hs; exact H2).
    assert (Ha : alike R X y (search_start s1 cv1 w1) (search_start s2 cv1 w2))
      by (unfold alike, search_start; simpl; rewrite <- Hs; auto).
    destruct (search_reproducible _ _ Ha) as [Hfst (HR2 & Hs2 & Hh2)].
    destruct (search X y (search_start s1 cv1 w1)) as [r1 p1],
             (search X y (search_start s2 cv1 w2)) as [r2 p2].
    simpl in Hfst, HR2, Hs2, Hh2. subst r2. rewrite <- Hs2.
    destruct r1 as [[] | e]; [unfold alike; simpl; auto |].
    destruct (isinstance e BudgetExhaustedException); unfold alike; simpl; auto.
  - unfold fit, bind, attr, call. simpl. rewrite <- Hs, H1, H2. simpl.
    unfold alike, with_ext. simpl. auto.
Qed.

End Determinism.


(** The concrete collaborators are deterministic up to the global random
    state: only [train_test_split] reads it. *)
Lemma toy_search_same_moves (limit : option Z) (todo : list Z) :
  forall (done : list (Z * Z)) (w1 w2 : Toy.world),
    Toy.same_but_rng w1 w2 ->
    same_moves (E:=Toy.env) Toy.same_but_rng
      (Toy.toy_search limit done todo w1) (Toy.toy_search limit done todo w2).
Proof.
  induction todo as [| c todo IH]; intros done w1 w2 HR; simpl.
  - assert (HR' : Toy.same_but_rng (Toy.set_runs w1 done) (Toy.set_runs w2 done))
      by (destruct HR as (Hc & Hf & _); repeat split; assumption).
    destruct (Toy.argmin done) as [[c0 l0] |]; apply (@same_stop Toy.env); exact HR'.
  - assert (He : Toy.exhausted limit w1 = Toy.exhausted limit w2)
      by (destruct HR as (Hc & _); unfold Toy.exhausted; rewrite Hc; reflexivity).
    rewrite He. destruct (Toy.exhausted limit w2).
    + apply (@same_stop Toy.env).
      destruct HR as (Hc & Hf & _); repeat split; assumption.
    + apply (@same_ask Toy.env); [exact HR |].
      intros o w1' w2' HR'. apply IH. exact HR'.
Qed.

Lemma toy_deterministic : deterministic Toy.env Toy.same_but_rng.
Proof.
  split.
  - intros c y b w1 w2 HR. split; [reflexivity | exact HR].
  - intros t X y c sc w1 w2 (Hc & Hf & Hr). simpl.
    unfold Toy.toy_cross_val_score_track_trials.
    destruct (Z.of_nat (length y) <? c)%Z;
      [split; [reflexivity | repeat split; assumption] |].
    destruct (t <? 0)%Z; [split; [reflexivity | repeat split; assumption] |].
    simpl. split; [reflexivity | repeat split; simpl; congruence].
  - intros t w1 w2 HR. split; [reflexivity | exact HR].
  - intros est c w1 w2 HR. split; [reflexivity | exact HR].
  - intros t X y w1 w2 HR. simpl. unfold Toy.toy_trainable_fit.
    destruct (t <? 0)%Z; split; (reflexivity || exact HR).
  - intros o w1 w2 (Hc & Hf & Hr). simpl. rewrite Hr.
    split; [reflexivity | repeat split; assumption].
  - intros o w1 w2 HR. apply toy_search_same_moves. exact HR.
Qed.

Lemma toy_seeded_optimizer (sc : Toy.dict) :
  repeatable (E:=Toy.env) Toy.same_but_rng (SMAC_new Toy.env sc (mkRandomState 42)).
Proof.
  intros w1 w2 HR. simpl. unfold Toy.toy_SMAC_new.
  destruct (Toy.lookup sc "runcount-limit") as [[] |];
    try (split; [reflexivity | exact HR]).
  destruct (Toy.lookup sc "cs") as [[] |]; split; (reflexivity || exact HR).
Qed.



(* ------------------------------------------------------------------ *)
(** * Further results *)

(** ** What [fit] assigns, and when it raises *)

Section FitFrame.

Variable E : Externals.
Variables (X_train : Data E) (y_train : Target E).

(** The [try] body assigns [trials] and [_best_estimator] and nothing
    else: whatever is read off the object and does not depend on these two
    is the same afterwards, however the body ends. *)
Lemma search_frame {A} (g : SMACImpl E -> A) (s : state E) :
  (forall o v, g (set_trials E o v) = g o) ->
  (forall o v, g (set_best_estimator E o v) = g o) ->
  g (self (snd (search X_train y_train s))) = g (self s).
Proof.
  intros Ht Hb. rewrite search_unfold.
  destruct (SMAC_new E _ _ (ext s)) as [[o | e0] w1]; [| reflexivity].
  pose proof (play_keeps_self E _ (SMAC_optimize E o w1)
                (tae_keeps_self E (estimator E (self s)) X_train y_train)
                (with_ext s w1)) as Hp.
  cbv beta in Hp.
  destruct (play _ (SMAC_optimize E o w1) _) as [[incumbent | e0] s2]; simpl in Hp;
    [| simpl; rewrite Hp; reflexivity].
  destruct (SMAC_get_runhistory E o (ext s2)) as [[history | e0] w3];
    [| simpl; rewrite Hp; reflexivity].
  cbv zeta.
  destruct (lale_trainable_op_from_config E _ incumbent w3) as [[trainable | e0] w4];
    [| simpl; rewrite Ht, Hp; reflexivity].
  destruct (trainable_fit E trainable X_train y_train w4) as [[trained | e0] w5];
    simpl; [rewrite Hb |]; rewrite Ht, Hp; reflexivity.
Qed.

Lemma fit_frame {A} (g : SMACImpl E -> A) (s : state E) :
  (forall o v, g (set_cv E o v) = g o) ->
  (forall o v, g (set_trials E o v) = g o) ->
  (forall o v, g (set_best_estimator E o v) = g o) ->
  g (self (snd (fit X_train y_train s))) = g (self s).
Proof.
  intros Hc Ht Hb.
  destruct (check_cv E (cv E (self s)) y_train true (ext s)) as [[cv1 | e] w] eqn:Hcv.
  - rewrite (fit_unfold E X_train y_train s cv1 w Hcv).
    pose proof (search_frame g (search_start s cv1 w) Ht Hb) as Hs.
    simpl in Hs. rewrite Hc in Hs.
    destruct (search X_train y_train (search_start s cv1 w)) as [[[] | e] s1];
      simpl in *; [exact Hs |].
    destruct (isinstance e BudgetExhaustedException); simpl; [| rewrite Hb]; exact Hs.
  - unfold fit, bind, attr, call. simpl. rewrite Hcv. reflexivity.
Qed.

End FitFrame.

(** [fit] raises only what [check_cv] raises, and then it has touched
    neither the object nor the log; once [check_cv] has returned, [fit]
    returns [self], whose [cv] is then the checked cross-validator,
    whether the search succeeded or not. *)
Theorem fit_raises_only_from_check_cv (E : Externals) (X_train : Data E)
  (y_train : Target E) (s : state E) :
  match check_cv E (cv E (self s)) y_train true (ext s) with
  | (Raise e, w) => fit X_train y_train s = (Raise e, with_ext s w)
  | (Return cv1, w) =>
      exists s', fit X_train y_train s = (Return (self s'), s') /\ cv E (self s') = cv1
  end.
Proof.
  destruct (check_cv E (cv E (self s)) y_train true (ext s)) as [[cv1 | e] w] eqn:Hcv.
  - rewrite (fit_unfold E X_train y_train s cv1 w Hcv).
    pose proof (search_frame E X_train y_train (cv E) (search_start s cv1 w)
                  (fun _ _ => eq_refl) (fun _ _ => eq_refl)) as Hs.
    simpl in Hs.
    destruct (search X_train y_train (search_start s cv1 w)) as [[[] | e] s1];
      simpl in Hs.
    + exists s1. split; [reflexivity | exact Hs].
    + destruct (isinstance e BudgetExhaustedException).
      * exists (mk_state (ext s1) (log s1 ++ [budget_warning E]) (self s1)).
        split; [reflexivity | exact Hs].
      * exists (mk_state (ext s1) (log s1 ++ [optimization_warning E e])
                  (set_best_estimator E (self s1) None)).
        split; [reflexivity | exact Hs].
  - unfold fit, bind, attr, call. simpl. rewrite Hcv. reflexivity.
Qed.

(** [fit] never changes a hyperparameter: the estimator, the search space,
    the scenario, the scoring, the best score, the limits and the
    tolerance flag are after [fit] what they were before, whether it
    raises, fails inside or succeeds. *)
Theorem fit_keeps_settings (E : Externals) (X_train : Data E) (y_train : Target E)
  (s : state E) :
  same_settings (self s) (self (snd (fit X_train y_train s))).
Proof.
  unfold same_settings.
  repeat split; symmetry; apply fit_frame; intros; reflexivity.
Qed.

(** ** The objective *)

(** [f] adds nothing of its own to what [smac_train_test] does but the
    subtraction and one warning: it returns best_score minus the score
    when [smac_train_test] returns, and raises the very exception
    [smac_train_test] raised, after exactly one warning; reading the loss
    back from its dict never fails. *)
Theorem f_follows_smac_train_test (E : Externals) (X_train : Data E)
  (y_train : Target E) (trainable : Trainable E) (s : state E) :
  f X_train y_train trainable s =
  match smac_train_test trainable X_train y_train s with
  | (Return (score, _, _), s') => (Return (sub E (best_score E (self s)) score), s')
  | (Raise e, s') =>
      (Raise e, mk_state (ext s') (log s' ++ [crash_warning E e]) (self s'))
  end.
Proof.
  pose proof (smac_train_test_keeps_self E trainable X_train y_train s) as Hk.
  destruct (smac_train_test trainable X_train y_train s)
    as [[[[score logloss] time] | e] s'] eqn:Ht; simpl in Hk.
  - rewrite (f_returns E trainable X_train y_train s _ _ _ _ Ht), Hk. reflexivity.
  - exact (f_raises E trainable X_train y_train s _ _ Ht).
Qed.

(** Evaluating a trial never assigns an attribute of the object, in
    either mode and whether the trial returns or raises. *)
Theorem objective_leaves_object_alone (E : Externals) (X_train : Data E)
  (y_train : Target E) (trainable : Trainable E) (s : state E) :
  self (snd (smac_train_test trainable X_train y_train s)) = self s /\
  self (snd (f X_train y_train trainable s)) = self s.
Proof.
  split.
  - apply smac_train_test_keeps_self.
  - apply f_keeps_self.
Qed.

(** With failures tolerated, the exception of the cross-validation is
    dropped: [smac_train_test] logs nothing about it.  However the holdout
    ends, the log is as it was, or longer by the one note that the
    log-loss could not be computed. *)
Theorem tolerated_cv_failure_is_not_logged (E : Externals) (trainable : Trainable E)
  (X_train : Data E) (y_train : Target E) (s : state E) (e : exn) (w1 : World E) :
  cross_val_score_track_trials E trainable X_train y_train
    (cv E (self s)) (scoring E (self s)) (ext s) = (Raise e, w1) ->
  handle_cv_failure E (self s) = true ->
  log (snd (smac_train_test trainable X_train y_train s)) = log s \/
  log (snd (smac_train_test trainable X_train y_train s)) =
    (log s ++ [log_loss_note E])%list.
Proof.
  intros Hcv Hh. unfold smac_train_test. rewrite try_except_BaseException.
  step. rewrite Hcv. simpl. rewrite Hh. step.
  destruct (train_test_split E X_train y_train (test_size_020 E) w1)
    as [[[[[Xt Xv] yt] yv] | e1] w2]; simpl; [| left; reflexivity].
  destruct (time_time E w2) as [start w3]; simpl.
  destruct (trainable_fit E trainable Xt yt w3) as [[trained | e1] w4]; simpl;
    [| left; reflexivity].
  destruct (check_scoring E trainable (scoring E (self s)) w4) as [[scorer | e1] w5];
    simpl; [| left; reflexivity].
  destruct (scorer_call E scorer trained Xv yv w5) as [[score | e1] w6]; simpl;
    [| left; reflexivity].
  destruct (time_time E w6) as [stop w7]; simpl.
  destruct (predict_proba E trained Xv w7) as [[proba | e1] w8]; simpl;
    [| left; reflexivity].
  rewrite try_except_BaseException. simpl.
  destruct (log_loss E yv proba w8) as [[logloss | e1] w9]; simpl;
    [left | right]; reflexivity.
Qed.

(** The holdout calls [predict_proba] outside the [try] that guards
    [log_loss]: when it raises, the score already computed is lost,
    [smac_train_test] raises that exception and [f] passes it on after its
    warning. *)
Theorem holdout_predict_proba_raises (E : Externals) (trainable : Trainable E)
  (X_train : Data E) (y_train : Target E) (s : state E) (e e' : exn)
  (X_train_part X_validation : Data E) (y_train_part y_validation : Target E)
  (start stop cv_score : num E) (trained : Trained E) (scorer : Scorer E)
  (w1 w2 w3 w4 w5 w6 w7 w8 : World E) :
  cross_val_score_track_trials E trainable X_train y_train
    (cv E (self s)) (scoring E (self s)) (ext s) = (Raise e, w1) ->
  handle_cv_failure E (self s) = true ->
  train_test_split E X_train y_train (test_size_020 E) w1 =
    (Return (X_train_part, X_validation, y_train_part, y_validation), w2) ->
  time_time E w2 = (start, w3) ->
  trainable_fit E trainable X_train_part y_train_part w3 = (Return trained, w4) ->
  check_scoring E trainable (scoring E (self s)) w4 = (Return scorer, w5) ->
  scorer_call E scorer trained X_validation y_validation w5 = (Return cv_score, w6) ->
  time_time E w6 = (stop, w7) ->
  predict_proba E trained X_validation w7 = (Raise e', w8) ->
  smac_train_test trainable X_train y_train s = (Raise e', mk_state w8 (log s) (self s)) /\
  f X_train y_train trainable s =
    (Raise e', mk_state w8 (log s ++ [crash_warning E e']) (self s)).
Proof.
  intros Hcv Hh Hsplit Ht0 Hfit Hcs Hsc Ht1 Hpp.
  assert (Ht : smac_train_test trainable X_train y_train s =
               (Raise e', mk_state w8 (log s) (self s))).
  { unfold smac_train_test. rewrite try_except_BaseException.
    step. rewrite Hcv. simpl. rewrite Hh. step.
    rewrite Hsplit. simpl. rewrite Ht0. simpl. rewrite Hfit. simpl.
    rewrite Hcs. simpl. rewrite Hsc. simpl. rewrite Ht1. simpl.
    rewrite Hpp. reflexivity. }
  split; [exact Ht |].
  exact (f_raises E trainable X_train y_train s _ _ Ht).
Qed.

(** ** [predict] and [get_pipeline] on a stored estimator *)

(** [predict] hands out what the stored estimator predicts, and lets
    through every exception that is not a ValueError as it is; in both
    cases it logs nothing. *)
Theorem predict_passes_on (E : Externals) (X_eval : Data E) (s : state E)
  (t : Trained E) :
  _best_estimator E (self s) = Some (Some t) ->
  match trained_predict E t X_eval (filterwarnings E "ignore" (ext s)) with
  | (Return p, w) => predict X_eval s = (Return (Some p), with_ext s w)
  | (Raise e, w) =>
      isinstance e ValueError = false -> predict X_eval s = (Raise e, with_ext s w)
  end.
Proof.
  intros Hb. rewrite (predict_present X_eval s t Hb).
  destruct (trained_predict E t X_eval (filterwarnings E "ignore" (ext s)))
    as [[p | e] w]; [reflexivity |].
  intros He. rewrite He. reflexivity.
Qed.

(** [predict] never assigns an attribute of the object, and the most it
    adds to the log is one warning. *)
Theorem predict_leaves_object_alone (E : Externals) (X_eval : Data E) (s : state E) :
  self (snd (predict X_eval s)) = self s /\
  (log (snd (predict X_eval s)) = log s \/
   exists r, level r = WARNING /\ log (snd (predict X_eval s)) = (log s ++ [r])%list).
Proof.
  destruct (_best_estimator E (self s)) as [[t |] |] eqn:Hb.
  - rewrite (predict_present X_eval s t Hb).
    destruct (trained_predict E t X_eval (filterwarnings E "ignore" (ext s)))
      as [[p | e] w]; simpl; [auto |].
    destruct (isinstance e ValueError); simpl; [| auto].
    split; [reflexivity |]. right. eexists. split; [| reflexivity]. reflexivity.
  - destruct (predict_absent X_eval s (or_intror Hb)) as [msg ->]. simpl. auto.
  - destruct (predict_absent X_eval s (or_introl Hb)) as [msg ->]. simpl. auto.
Qed.

(** [get_pipeline] only reads: it never assigns an attribute and never
    logs, and unless a stored estimator is asked for as ['sklearn'] it
    leaves the whole state as it was. *)
Theorem get_pipeline_only_reads (E : Externals) (pipeline_name : option string)
  (astype : string) (s : state E) :
  self (snd (get_pipeline pipeline_name astype s)) = self s /\
  log (snd (get_pipeline pipeline_name astype s)) = log s /\
  (String.eqb astype "sklearn" = false \/ pipeline_name <> None \/ absent (self s) ->
   snd (get_pipeline pipeline_name astype s) = s).
Proof.
  destruct pipeline_name as [name |]; [simpl; auto |].
  destruct (_best_estimator E (self s)) as [[t |] |] eqn:Hb.
  - rewrite (get_pipeline_present astype s t Hb).
    destruct (String.eqb astype "lale") eqn:Hl; [simpl; auto |].
    destruct (String.eqb astype "sklearn") eqn:Hs.
    + destruct (make_sklearn_compat E t (ext s)) as [[c | e] w]; simpl;
        (split; [reflexivity |]); (split; [reflexivity |]);
        intros [H | [H | [H | H]]]; congruence.
    + simpl. auto.
  - rewrite (get_pipeline_absent astype s (or_intror Hb)). simpl. auto.
  - rewrite (get_pipeline_absent astype s (or_introl Hb)). simpl. auto.
Qed.

(** ** [__init__] *)

(** [__init__] stores its arguments as they are.  [LogisticRegression()]
    is built only when no estimator is given; the search space is that of
    the estimator the object holds, and the scenario is built from the
    object's own [max_evals], search space and [max_opt_time]. *)
Theorem init_stores_arguments (E : Externals) (est : option (Estimator E))
  (evals : Z) (folds : CrossValidator E) (tolerant : bool) (sc : Scoring E)
  (best : num E) (budget grids : option (num E)) (w w' : World E) (o : SMACImpl E) :
  __init__ E est evals folds tolerant sc best budget grids w = (Return o, w') ->
  max_evals E o = evals /\ cv E o = folds /\ handle_cv_failure E o = tolerant /\
  scoring E o = sc /\ best_score E o = best /\ max_opt_time E o = budget /\
  exists w1 w2,
    match est with
    | Some given => estimator E o = given /\ w1 = w
    | None => LogisticRegression E w = (Return (estimator E o), w1)
    end /\
    get_smac_space E (estimator E o) grids w1 = (Return (search_space E o), w2) /\
    Scenario_new E
      (scenario_options E (max_evals E o) (search_space E o) (max_opt_time E o)) w2 =
      (Return (scenario E o), w').
Proof.
  unfold __init__, and_then.
  destruct (match est with
            | Some e => fun w0 => (Return e, w0)
            | None => LogisticRegression E
            end w) as [[e0 | x] w1] eqn:H1; [| discriminate].
  destruct (get_smac_space E e0 grids w1) as [[space | x] w2] eqn:H2; [| discriminate].
  destruct (Scenario_new E _ w2) as [[scen | x] w3] eqn:H3; [| discriminate].
  intros H; inversion H; subst; clear H. simpl.
  repeat (split; [reflexivity |]).
  exists w1, w2. split; [| split; assumption].
  destruct est as [given |]; [inversion H1; subst; split; reflexivity | exact H1].
Qed.

(** The scenario options never hold a wall-clock limit unless a time
    budget was given, and then it is that budget; the run-count limit is
    [max_evals], the configuration space the search space; no key occurs
    twice. *)
Theorem scenario_options_entries (E : Externals) (evals : Z)
  (space : ConfigurationSpace E) (budget : option (num E)) :
  let options := scenario_options E evals space budget in
  dict_get options "wallclock_limit" = option_map ONum budget /\
  dict_get options "runcount-limit" = Some (OInt evals) /\
  dict_get options "cs" = Some (OSpace space) /\
  dict_get options "run_obj" = Some (OStr "quality") /\
  dict_get options "deterministic" = Some (OStr "true") /\
  dict_get options "abort_on_first_run_crash" = Some (OBool false) /\
  NoDup (map fst options).
Proof.
  destruct budget as [t |]; simpl; repeat split;
    repeat (constructor; [simpl; intuition discriminate |]); constructor.
Qed.

(** A new object has nothing to show: [get_trials()] and [get_pipeline()]
    return None, and [predict] raises AttributeError, because
    [__init__] never creates the attribute [_best_estimator]. *)
Theorem new_object_has_no_results (E : Externals) (est : option (Estimator E))
  (evals : Z) (folds : CrossValidator E) (tolerant : bool) (sc : Scoring E)
  (best : num E) (budget grids : option (num E)) (w w' : World E) (o : SMACImpl E)
  (s : state E) (X_eval : Data E) :
  __init__ E est evals folds tolerant sc best budget grids w = (Return o, w') ->
  self s = o ->
  get_trials s = (Return None, s) /\
  (forall astype, get_pipeline None astype s = (Return None, s)) /\
  predict X_eval s =
    (Raise (mk_exn AttributeError "'SMACImpl' object has no attribute '_best_estimator'"),
     with_ext s (filterwarnings E "ignore" (ext s))).
Proof.
  intros Hinit Hs.
  destruct (init_leaves_best_estimator_unset E _ _ _ _ _ _ _ _ _ _ _ Hinit)
    as (Ht & Hb & Habs & _).
  rewrite <- Hs in Ht, Hb, Habs.
  split; [unfold get_trials, attr; rewrite Ht; reflexivity |].
  split; [intros astype; apply get_pipeline_absent; exact Habs |].
  unfold predict, attr_best_estimator, bind, call. simpl. rewrite Hb. reflexivity.
Qed.

(** ** [fit], then the other methods *)

Lemma search_stores_estimator (E : Externals) (X_train : Data E) (y_train : Target E)
  (s s1 : state E) :
  search X_train y_train s = (Return tt, s1) ->
  exists trained history,
    _best_estimator E (self s1) = Some (Some trained) /\
    trials E (self s1) = Some history.
Proof.
  rewrite search_unfold.
  destruct (SMAC_new E _ _ (ext s)) as [[o | e0] w1]; [| discriminate].
  destruct (play _ (SMAC_optimize E o w1) _) as [[incumbent | e0] s2]; [| discriminate].
  destruct (SMAC_get_runhistory E o (ext s2)) as [[history | e0] w3]; [| discriminate].
  cbv zeta.
  destruct (lale_trainable_op_from_config E _ incumbent w3) as [[trainable | e0] w4];
    [| discriminate].
  destruct (trainable_fit E trainable X_train y_train w4) as [[trained | e0] w5];
    [| discriminate].
  intros H; inversion H; subst; clear H. exists trained, history. split; reflexivity.
Qed.

(** After a [fit] whose search ran to its end, the three getters agree:
    [get_pipeline()] hands out the estimator [fit] stored, [predict]
    answers with that estimator's predictions (or its exception, a
    ValueError becoming None), and [get_trials()] returns a run history. *)
Theorem fit_then_use (E : Externals) (X_train : Data E) (y_train : Target E)
  (s s1 : state E) (cv1 : CrossValidator E) (w : World E) :
  check_cv E (cv E (self s)) y_train true (ext s) = (Return cv1, w) ->
  search X_train y_train (search_start s cv1 w) = (Return tt, s1) ->
  snd (fit X_train y_train s) = s1 /\
  exists trained history,
    get_pipeline None "lale" s1 = (Return (Some (LalePipeline trained)), s1) /\
    get_trials s1 = (Return (Some history), s1) /\
    forall X_eval,
      predict X_eval s1 =
      match trained_predict E trained X_eval (filterwarnings E "ignore" (ext s1)) with
      | (Return p, w') => (Return (Some p), with_ext s1 w')
      | (Raise e, w') =>
          if isinstance e ValueError then
            (Return None,
             mk_state w'
               (log s1 ++ [mk_log WARNING
                             "ValueError in predicting using SMACCV:{}, the error is:{}"
                             [ArgEstimator (Some trained); ArgExn e]])
               (self s1))
          else (Raise e, with_ext s1 w')
      end.
Proof.
  intros Hcv Hs.
  split; [rewrite (fit_unfold E X_train y_train s cv1 w Hcv), Hs; reflexivity |].
  destruct (search_stores_estimator E X_train y_train _ _ Hs)
    as (trained & history & Hb & Ht).
  exists trained, history.
  split; [rewrite (get_pipeline_present "lale" s1 trained Hb); reflexivity |].
  split; [unfold get_trials, attr; rewrite Ht; reflexivity |].
  intros X_eval. apply predict_present. exact Hb.
Qed.

(** ** The schema of the hyperparameters *)

(** The schema and the constructor agree: the schema declares the eight
    parameters of [__init__], in the order of the signature and each with
    the default of the signature; it forbids any other property, and it
    requires all of them but [scoring] and [best_score]. *)
Theorem schema_agrees_with_init :
  Schema.declared_defaults =
    map (fun kv => (fst kv, Some (snd kv))) Schema.init_defaults /\
  Schema.bind_opt Schema.object_schema (Schema.field "additionalProperties") =
    Some (Schema.JBool false) /\
  (forall k, In k Schema.required -> In k (map fst Schema.init_defaults)) /\
  filter (fun k => negb (existsb (String.eqb k) Schema.required))
    (map fst Schema.init_defaults) = ["scoring"; "best_score"].
Proof.
  split; [reflexivity |]. split; [reflexivity |]. split; [| reflexivity].
  intros k Hk. simpl in Hk. simpl. intuition.
Qed.

(** ** The edges of [predict] and [get_pipeline] *)

(** With no Best Estimator stored (the attribute missing, or None after a
    failed search) [predict] raises AttributeError for every input: the
    warnings filter is installed, nothing is logged, the object is as it
    was. *)
Theorem predict_without_estimator (E : Externals) (X_eval : Data E) (s : state E) :
  absent (self s) ->
  exists msg,
    predict X_eval s =
    (Raise (mk_exn AttributeError msg), with_ext s (filterwarnings E "ignore" (ext s))).
Proof. apply predict_absent. Qed.

(** On a stored estimator [get_pipeline(astype=...)] hands it out as it is
    for ['lale'], converted for ['sklearn'] (an exception of the conversion
    reaches the caller), and for any other format raises AssertionError
    with the format as its message, without converting. *)
Theorem get_pipeline_formats (E : Externals) (astype : string) (s : state E)
  (t : Trained E) :
  _best_estimator E (self s) = Some (Some t) ->
  get_pipeline None astype s =
  if String.eqb astype "lale" then (Return (Some (LalePipeline t)), s)
  else if String.eqb astype "sklearn" then
    match make_sklearn_compat E t (ext s) with
    | (Return c, w) => (Return (Some (SklearnPipeline c)), with_ext s w)
    | (Raise e, w) => (Raise e, with_ext s w)
    end
  else (Raise (mk_exn AssertionError astype), s).
Proof. apply get_pipeline_present. Qed.

(** ** The further results on the concrete collaborators *)

(** Four samples for five folds, failures tolerated, label 1: the only
    record logged is the note on the log-loss. *)
Lemma tolerated_cv_failure_is_not_logged_witness :
  let s := Toy.initial 0 (Toy.fresh [0; 1]%Z 2 5 true None) in
  let e := mk_exn ValueError "n_splits greater than the number of samples" in
  cross_val_score_track_trials Toy.env 1%Z [10; 20; 30; 40]%Z [1; 0; 0; 0]%Z
    (cv Toy.env (self s)) (scoring Toy.env (self s)) (ext s) = (Raise e, ext s) /\
  handle_cv_failure Toy.env (self s) = true /\
  log (snd (smac_train_test (E:=Toy.env) 1%Z [10; 20; 30; 40]%Z [1; 0; 0; 0]%Z s)) =
    [log_loss_note Toy.env].
Proof.
  intros s e. split; [reflexivity |]. split; [reflexivity |].
  destruct (tolerated_cv_failure_is_not_logged Toy.env 1%Z [10; 20; 30; 40]%Z
              [1; 0; 0; 0]%Z s e (ext s) eq_refl eq_refl) as [H | H].
  - discriminate H.
  - exact H.
Defined.

(** The classifier for label 7 has no [predict_proba]: its holdout score
    is computed and lost. *)
Lemma holdout_predict_proba_raises_witness :
  let s := Toy.initial 0 (Toy.fresh [0; 1]%Z 2 5 true None) in
  let e := mk_exn ValueError "n_splits greater than the number of samples" in
  let e' := mk_exn AttributeError "object has no attribute 'predict_proba'" in
  handle_cv_failure Toy.env (self s) = true /\
  scorer_call Toy.env tt (7, [0; 0; 0])%Z [10%Z] [1%Z] (Toy.mk_world 1 1 [] []) =
    (Return 0%Z, Toy.mk_world 1 1 [] []) /\
  smac_train_test (E:=Toy.env) 7%Z [10; 20; 30; 40]%Z [1; 0; 0; 0]%Z s =
    (Raise e', @mk_state Toy.env (Toy.mk_world 1 2 [] []) [] (self s)) /\
  f (E:=Toy.env) [10; 20; 30; 40]%Z [1; 0; 0; 0]%Z 7%Z s =
    (Raise e', @mk_state Toy.env (Toy.mk_world 1 2 [] []) [crash_warning Toy.env e']
                 (self s)).
Proof.
  intros s e e'. split; [reflexivity |]. split; [reflexivity |].
  exact (holdout_predict_proba_raises Toy.env 7%Z [10; 20; 30; 40]%Z [1; 0; 0; 0]%Z s e e'
           [20; 30; 40]%Z [10%Z] [0; 0; 0]%Z [1%Z] 0%Z 1%Z 0%Z (7, [0; 0; 0])%Z tt
           (Toy.mk_world 0 0 [] []) (Toy.mk_world 1 0 [] []) (Toy.mk_world 1 1 [] [])
           (Toy.mk_world 1 1 [] []) (Toy.mk_world 1 1 [] []) (Toy.mk_world 1 1 [] [])
           (Toy.mk_world 1 2 [] []) (Toy.mk_world 1 2 [] [])
           eq_refl eq_refl eq_refl eq_refl eq_refl eq_refl eq_refl eq_refl eq_refl).
Defined.

(** A negative label: the fit of the holdout raises as the
    cross-validation did. *)
Lemma holdout_fit_raises_witness :
  let s := Toy.initial 0 (Toy.fresh [0; 1]%Z 2 5 true None) in
  let e := mk_exn ValueError "n_splits greater than the number of samples" in
  let e' := mk_exn ValueError "negative label" in
  handle_cv_failure Toy.env (self s) = true /\
  trainable_fit Toy.env (-1)%Z [20; 30; 40]%Z [0; 0; 0]%Z (Toy.mk_world 1 1 [] []) =
    (Raise e', Toy.mk_world 1 1 [] []) /\
  smac_train_test (E:=Toy.env) (-1)%Z [10; 20; 30; 40]%Z [1; 0; 0; 0]%Z s =
    (Raise e', @mk_state Toy.env (Toy.mk_world 1 1 [] []) [] (self s)).
Proof.
  intros s e e'. split; [reflexivity |]. split; [reflexivity |].
  exact (holdout_fit_raises Toy.env (-1)%Z [10; 20; 30; 40]%Z [1; 0; 0; 0]%Z s e e'
           [20; 30; 40]%Z [10%Z] [0; 0; 0]%Z [1%Z] 0%Z
           (Toy.mk_world 0 0 [] []) (Toy.mk_world 1 0 [] []) (Toy.mk_world 1 1 [] [])
           (Toy.mk_world 1 1 [] [])
           eq_refl eq_refl eq_refl eq_refl eq_refl).
Defined.

(** On an object holding the classifier for label 1, [predict] raises the
    TypeError of a negative sample, and [get_pipeline] fails its assertion
    for a format it does not know. *)
Lemma predict_passes_on_witness :
  let history := [(0, -1); (1, -3); (2, 0)]%Z in
  let s := @mk_state Toy.env (Toy.mk_world 0 3 [] history) []
             (Toy.object [0; 1; 2]%Z 3 2 false None (Some history)
                (Some (Some (1, [1; 0; 1; 1])%Z))) in
  let e := mk_exn TypeError "unsupported operand" in
  _best_estimator Toy.env (self s) = Some (Some (1, [1; 0; 1; 1])%Z) /\
  isinstance e ValueError = false /\
  predict (E:=Toy.env) [(-1)%Z] s =
    (Raise e, with_ext s (Toy.mk_world 0 3 ["ignore"] history)).
Proof.
  intros history s e. split; [reflexivity |]. split; [reflexivity |].
  exact (predict_passes_on Toy.env [(-1)%Z] s (1, [1; 0; 1; 1])%Z eq_refl eq_refl).
Defined.

Lemma get_pipeline_formats_witness :
  let history := [(0, -1); (1, -3); (2, 0)]%Z in
  let s := @mk_state Toy.env (Toy.mk_world 0 3 [] history) []
             (Toy.object [0; 1; 2]%Z 3 2 false None (Some history)
                (Some (Some (1, [1; 0; 1; 1])%Z))) in
  _best_estimator Toy.env (self s) = Some (Some (1, [1; 0; 1; 1])%Z) /\
  get_pipeline (E:=Toy.env) None "onnx" s = (Raise (mk_exn AssertionError "onnx"), s) /\
  get_pipeline (E:=Toy.env) None "sklearn" s =
    (Return (Some (@SklearnPipeline Toy.env (1, [1; 0; 1; 1])%Z)), s).
Proof.
  intros history s. split; [reflexivity |]. split.
  - exact (get_pipeline_formats Toy.env "onnx" s (1, [1; 0; 1; 1])%Z eq_refl).
  - exact (get_pipeline_formats Toy.env "sklearn" s (1, [1; 0; 1; 1])%Z eq_refl).
Defined.

Lemma get_pipeline_only_reads_witness :
  let s := Toy.initial 0 (Toy.fresh [0; 1]%Z 2 2 false None) in
  absent (self s) /\
  snd (get_pipeline (E:=Toy.env) None "sklearn" s) = s.
Proof.
  intros s. split; [left; reflexivity |].
  exact (proj2 (proj2 (get_pipeline_only_reads Toy.env None "sklearn" s))
           (or_intror (or_intror (or_introl eq_refl)))).
Defined.

(** On an object after a failed search the estimator is None, and
    [predict] raises AttributeError. *)
Lemma predict_without_estimator_witness :
  let s := @mk_state Toy.env (Toy.mk_world 0 0 [] []) []
             (Toy.object [] 3 2 false None None (Some None)) in
  absent (self s) /\
  exists msg,
    predict (E:=Toy.env) [1%Z] s =
    (Raise (mk_exn AttributeError msg),
     with_ext s (filterwarnings Toy.env "ignore" (ext s))).
Proof.
  intros s. split; [right; reflexivity |].
  exact (predict_without_estimator Toy.env [1%Z] s (or_intror eq_refl)).
Defined.

(** The constructor on the concrete collaborators, with a time budget. *)
Lemma init_stores_arguments_witness :
  let o := Toy.fresh [0; 1]%Z 2 5 true (Some 60%Z) in
  __init__ Toy.env (Some [0; 1]%Z) 2 5%Z true "accuracy" 0%Z (Some 60%Z) None Toy.w0 =
    (Return o, Toy.w0) /\
  estimator Toy.env o = [0; 1]%Z /\
  dict_get (scenario Toy.env o) "wallclock_limit" = Some (ONum 60%Z).
Proof.
  intros o. split; [reflexivity |].
  destruct (init_stores_arguments Toy.env (Some [0; 1]%Z) 2 5%Z true "accuracy" 0%Z
              (Some 60%Z) None Toy.w0 Toy.w0 o eq_refl)
    as (_ & _ & _ & _ & _ & _ & w1 & w2 & (Hest & _) & _ & _).
  split; [exact Hest | reflexivity].
Defined.

Lemma new_object_has_no_results_witness :
  let o := Toy.fresh [0; 1]%Z 2 5 true None in
  let s := Toy.initial 0 o in
  __init__ Toy.env (Some [0; 1]%Z) 2 5%Z true "accuracy" 0%Z None None Toy.w0 =
    (Return o, Toy.w0) /\
  get_trials (E:=Toy.env) s = (Return None, s) /\
  predict (E:=Toy.env) [1%Z] s =
    (Raise (mk_exn AttributeError "'SMACImpl' object has no attribute '_best_estimator'"),
     with_ext s (Toy.mk_world 0 0 ["ignore"] [])).
Proof.
  intros o s. split; [reflexivity |].
  destruct (new_object_has_no_results Toy.env (Some [0; 1]%Z) 2 5%Z true "accuracy" 0%Z
              None None Toy.w0 Toy.w0 o s [1%Z] eq_refl eq_refl) as (Ht & _ & Hp).
  split; [exact Ht | exact Hp].
Defined.

(** Three labels tried on four samples: the getters after [fit]. *)
Lemma fit_then_use_witness :
  let s := Toy.initial 0 (Toy.fresh [0; 1; 2]%Z 3 2 false None) in
  let history := [(0, -1); (1, -3); (2, 0)]%Z in
  let success := mk_log DEBUG "Successful trial of SMAC" [] in
  let s1 := @mk_state Toy.env (Toy.mk_world 0 3 [] history) [success; success; success]
              (Toy.object [0; 1; 2]%Z 3 2 false None (Some history)
                 (Some (Some (1, [1; 0; 1; 1])%Z))) in
  search (E:=Toy.env) [10; 20; 30; 40]%Z [1; 0; 1; 1]%Z (search_start s 2%Z (ext s)) =
    (Return tt, s1) /\
  snd (fit (E:=Toy.env) [10; 20; 30; 40]%Z [1; 0; 1; 1]%Z s) = s1 /\
  predict (E:=Toy.env) [5; 6]%Z s1 =
    (Return (Some [1; 1]%Z), with_ext s1 (Toy.mk_world 0 3 ["ignore"] history)).
Proof.
  intros s history success s1. split; [reflexivity |].
  destruct (fit_then_use Toy.env [10; 20; 30; 40]%Z [1; 0; 1; 1]%Z s s1 2%Z (ext s)
              eq_refl eq_refl) as (Hfit & trained & h & Hget & _ & Hpredict).
  split; [exact Hfit |].
  assert (Ht : trained = (1, [1; 0; 1; 1])%Z) by (inversion Hget; reflexivity).
  subst trained. exact (Hpredict [5; 6]%Z).
Defined.
